(** * Regular Organizer: the reminder life cycle and its serialized form

    A shallow embedding of [Organizer.py] (classes [Reminder] and
    [Calendar]) and the properties of its specification.

    Python objects live in a store and are named by their identity; the
    methods are computations in a state-and-exception monad over a [world]
    that holds the store, the files, the console and the wall clock. *)

From Stdlib Require Import Ascii.
From stdpp Require Import base option list strings gmap fin_maps.
From stdpp Require Import sorting.

Open Scope Z_scope.

(** ** Dates and times of the [datetime] module

    A [datetime.datetime] is a calendar date and a time of day;
    [dt.date()] and [dt.time()] are its two components.  Only naive values
    occur in the program (it never passes a [tzinfo]). *)

Record date := MkDate { year : Z; month : Z; day : Z }.

Record time := MkTime { hour : Z; minute : Z; second : Z; microsecond : Z }.

Record datetime := MkDateTime { dt_date : date; dt_time : time }.

#[global] Instance date_eq_dec : EqDecision date.
Proof. solve_decision. Defined.

#[global] Instance time_eq_dec : EqDecision time.
Proof. solve_decision. Defined.

#[global] Instance datetime_eq_dec : EqDecision datetime.
Proof. solve_decision. Defined.

Definition is_leap (y : Z) : bool :=
  (y mod 4 =? 0) && (negb (y mod 100 =? 0) || (y mod 400 =? 0)).

Definition days_in_month (y m : Z) : Z :=
  match m with
  | 1 | 3 | 5 | 7 | 8 | 10 | 12 => 31
  | 4 | 6 | 9 | 11 => 30
  | 2 => if is_leap y then 29 else 28
  | _ => 0
  end.

(** The range checks of the [date], [time] and [datetime] constructors:
    every value the interpreter hands out satisfies them. *)
Definition date_ok (d : date) : bool :=
  (1 <=? year d) && (year d <=? 9999) &&
  (1 <=? month d) && (month d <=? 12) &&
  (1 <=? day d) && (day d <=? days_in_month (year d) (month d)).

Definition time_ok (t : time) : bool :=
  (0 <=? hour t) && (hour t <? 24) && (0 <=? minute t) && (minute t <? 60) &&
  (0 <=? second t) && (second t <? 60) &&
  (0 <=? microsecond t) && (microsecond t <? 1000000).

Definition datetime_ok (dt : datetime) : bool :=
  date_ok (dt_date dt) && time_ok (dt_time dt).

(** Comparison of two [time] values, as [time.__le__] does it: the tuples
    (hour, minute, second, microsecond) in lexicographic order. *)
Definition lex (c : comparison) (k : comparison) : comparison :=
  match c with Eq => k | _ => c end.

Definition time_cmp (a b : time) : comparison :=
  lex (hour a ?= hour b)
    (lex (minute a ?= minute b)
      (lex (second a ?= second b) (microsecond a ?= microsecond b))).

Definition time_le (a b : time) : bool :=
  match time_cmp a b with Gt => false | _ => true end.

Definition date_cmp (a b : date) : comparison :=
  lex (year a ?= year b) (lex (month a ?= month b) (day a ?= day b)).

(** Comparison of two naive [datetime] values: date first, then time. *)
Definition datetime_cmp (a b : datetime) : comparison :=
  lex (date_cmp (dt_date a) (dt_date b)) (time_cmp (dt_time a) (dt_time b)).

Definition datetime_le (a b : datetime) : bool :=
  match datetime_cmp a b with Gt => false | _ => true end.

(** ** Exceptions and results *)

Inductive exn :=
  | AttributeError
  | TypeError
  | ValueError
  | FileNotFoundError
  | JSONDecodeError
  | ReferenceError.

#[global] Instance exn_eq_dec : EqDecision exn.
Proof. solve_decision. Defined.

Inductive outcome (A : Type) :=
  | Return (a : A)
  | Raise (e : exn).
Arguments Return {A} a.
Arguments Raise {A} e.

(** ** [strftime] and [strptime] for the two formats of the program

    ["%Y-%m-%d %H:%M"] and ["%Y-%m-%d"].  [strftime] hands the format to
    the C library, which writes the fields [%m], [%d], [%H] and [%M] on
    two digits, zero-padded, and the year [%Y] as a plain decimal number:
    a year before 1000 comes out with fewer than four digits
    (["999-12-31"]).  [strptime] is the library's own parser, whose [%Y]
    wants exactly four digits.  Strings are strings of ASCII characters. *)

Definition digit_char (n : Z) : ascii := ascii_of_N (Z.to_N (48 + n mod 10)).

Fixpoint zero_padded (width : nat) (n : Z) (acc : string) : string :=
  match width with
  | O => acc
  | S w => zero_padded w (n / 10) (String (digit_char n) acc)
  end.

(** The number of digits of a year from 1 to 9999 written without padding. *)
Definition year_width (y : Z) : nat :=
  if y <? 10 then 1%nat
  else if y <? 100 then 2%nat
  else if y <? 1000 then 3%nat
  else 4%nat.

Definition strftime_date (d : date) (rest : string) : string :=
  zero_padded (year_width (year d)) (year d)
    (String "-" (zero_padded 2 (month d)
      (String "-" (zero_padded 2 (day d) rest)))).

(** [d.strftime("%Y-%m-%d")] *)
Definition strftime_Ymd (d : date) : string := strftime_date d "".

(** [dt.strftime("%Y-%m-%d %H:%M")] *)
Definition strftime_Ymd_HM (dt : datetime) : string :=
  strftime_date (dt_date dt)
    (String " " (zero_padded 2 (hour (dt_time dt))
      (String ":" (zero_padded 2 (minute (dt_time dt)) "")))).

Definition digit_val (c : ascii) : option Z :=
  let n := Z.of_N (N_of_ascii c) in
  if (48 <=? n) && (n <=? 57) then Some (n - 48) else None.

(** [\s] on the ASCII range. *)
Definition is_space (c : ascii) : bool :=
  let n := Z.of_N (N_of_ascii c) in
  ((9 <=? n) && (n <=? 13)) || ((28 <=? n) && (n <=? 32)).

(** A small parser type: the value read and the rest of the input. *)
Definition parser (A : Type) : Type := string → option (A * string).

(** One decimal digit. *)
Definition p_digit : parser Z := λ s,
  match s with
  | String c s' => (λ d, (d, s')) <$> digit_val c
  | EmptyString => None
  end.

(** [\d\d\d\d]: the directive [%Y]. *)
Definition p_year : parser Z := λ s,
  '(a, s) ← p_digit s; '(b, s) ← p_digit s;
  '(c, s) ← p_digit s; '(d, s) ← p_digit s;
  Some (1000 * a + 100 * b + 10 * c + d, s).

(** One or two digits.  The directives [%m], [%d], [%H] and [%M] are
    alternatives of one- and two-digit patterns that a non-digit follows,
    so the match is the longest run of at most two digits whose value is in
    [lo..hi]; a third digit makes the following literal fail. *)
Definition p_upto2 (lo hi : Z) : parser Z := λ s,
  '(a, s1) ← p_digit s;
  let '(n, s2) := match p_digit s1 with
                  | Some (b, s2) => (10 * a + b, s2)
                  | None => (a, s1)
                  end in
  if (lo <=? n) && (n <=? hi) then Some (n, s2) else None.

(** [%d] also accepts a space followed by one digit from 1 to 9. *)
Definition p_day : parser Z := λ s,
  match s with
  | String c s1 =>
      if decide (c = " "%char)
      then '(a, s2) ← p_digit s1; if 1 <=? a then Some (a, s2) else None
      else p_upto2 1 31 s
  | EmptyString => None
  end.

Definition p_char (c : ascii) : parser unit := λ s,
  match s with
  | String c' s' => if decide (c = c') then Some ((), s') else None
  | EmptyString => None
  end.

Fixpoint skip_spaces (s : string) : string :=
  match s with
  | String c s' => if is_space c then skip_spaces s' else s
  | EmptyString => s
  end.

(** [\s+], which a space in the format stands for. *)
Definition p_spaces : parser unit := λ s,
  match s with
  | String c s' => if is_space c then Some ((), skip_spaces s') else None
  | EmptyString => None
  end.

(** [datetime.datetime.strptime(s, "%Y-%m-%d %H:%M")]: the whole string
    must match, and the date must exist; seconds and microseconds are 0. *)
Definition strptime_Ymd_HM (s : string) : outcome datetime :=
  let parsed :=
    '(y, s) ← p_year s; '(_, s) ← p_char "-" s;
    '(m, s) ← p_upto2 1 12 s; '(_, s) ← p_char "-" s;
    '(d, s) ← p_day s; '(_, s) ← p_spaces s;
    '(H, s) ← p_upto2 0 23 s; '(_, s) ← p_char ":" s;
    '(M, s) ← p_upto2 0 59 s;
    match s with
    | EmptyString => Some (MkDateTime (MkDate y m d) (MkTime H M 0 0))
    | _ => None
    end in
  match parsed with
  | Some dt => if date_ok (dt_date dt) then Return dt else Raise ValueError
  | None => Raise ValueError
  end.

(** ** Objects

    Instances are named by their identity.  [Reminder] does not define
    [__eq__], so two reminders are equal for Python exactly when they are
    the same object. *)

Definition loc := positive.

(** The attributes [Reminder.__init__] sets.  [start_time] and [end_time]
    hold [datetime.datetime] values, as [check_notification], [serialize]
    and the view helpers use them and as [deserialize] builds them. *)
Record reminder := MkReminder {
  title : string;
  start_time : datetime;
  end_time : datetime;
  done : bool;
  triggered : bool;
  trigger_count : Z;
  done_count : Z;
  repetitions : list string;
  bank_holiday_adjustment : bool;
  permanent_offset : bool
}.

(** An entry of [completed_tasks]: the dict [{"title": .., "date": ..}]. *)
Record completed_task := MkCompleted { task_title : string; task_date : string }.

(** The attributes [Calendar.__init__] sets; [reminders] holds references. *)
Record calendar := MkCalendar {
  reminders : list loc;
  completed_tasks : list completed_task
}.

(** JSON documents, the content of the files the program writes. *)
#[warnings="-register-all"] Inductive json :=
  | JNull
  | JBool (b : bool)
  | JInt (n : Z)
  | JString (s : string)
  | JArray (items : list json)
  | JObject (members : list (string * json)).

(** What a file holds: a JSON document, or text that [json.load] does not
    accept as one. *)
Inductive content :=
  | Document (doc : json)
  | Malformed.

(** ** The world and the monad of methods *)

Record world := MkWorld {
  reminder_objs : gmap loc reminder;
  calendar_objs : gmap loc calendar;
  files : gmap string content;
  stdout : list string;
  clock : nat → datetime;
  ticks : nat
}.

Definition with_reminder_objs (f : gmap loc reminder → gmap loc reminder) (w : world) : world :=
  MkWorld (f (reminder_objs w)) (calendar_objs w) (files w) (stdout w) (clock w) (ticks w).

Definition with_calendar_objs (f : gmap loc calendar → gmap loc calendar) (w : world) : world :=
  MkWorld (reminder_objs w) (f (calendar_objs w)) (files w) (stdout w) (clock w) (ticks w).

Definition with_files (f : gmap string content → gmap string content) (w : world) : world :=
  MkWorld (reminder_objs w) (calendar_objs w) (f (files w)) (stdout w) (clock w) (ticks w).

Definition with_stdout (f : list string → list string) (w : world) : world :=
  MkWorld (reminder_objs w) (calendar_objs w) (files w) (f (stdout w)) (clock w) (ticks w).

Definition with_ticks (f : nat → nat) (w : world) : world :=
  MkWorld (reminder_objs w) (calendar_objs w) (files w) (stdout w) (clock w) (f (ticks w)).

(** A computation returns or raises, and in both cases leaves a world:
    what was mutated before an exception stays mutated. *)
Definition M (A : Type) : Type := world → outcome A * world.

#[global] Instance M_ret : MRet M := λ A a w, (Return a, w).

#[global] Instance M_bind : MBind M := λ A B f m w,
  match m w with
  | (Return a, w') => f a w'
  | (Raise e, w') => (Raise e, w')
  end.

#[global] Instance M_fmap : FMap M := λ A B f m, a ← m; mret (f a).

Definition raise {A} (e : exn) : M A := λ w, (Raise e, w).

Definition lift {A} (o : outcome A) : M A := λ w, (o, w).

(** Reading an object through a reference.  A reference to no object does
    not occur in Python; the model raises [ReferenceError] for it. *)
Definition get_reminder (r : loc) : M reminder := λ w,
  match reminder_objs w !! r with
  | Some o => (Return o, w)
  | None => (Raise ReferenceError, w)
  end.

(** Attribute assignment on a reminder. *)
Definition update_reminder (r : loc) (f : reminder → reminder) : M unit := λ w,
  match reminder_objs w !! r with
  | Some o => (Return (), with_reminder_objs <[r := f o]> w)
  | None => (Raise ReferenceError, w)
  end.

Definition get_calendar (c : loc) : M calendar := λ w,
  match calendar_objs w !! c with
  | Some o => (Return o, w)
  | None => (Raise ReferenceError, w)
  end.

Definition update_calendar (c : loc) (f : calendar → calendar) : M unit := λ w,
  match calendar_objs w !! c with
  | Some o => (Return (), with_calendar_objs <[c := f o]> w)
  | None => (Raise ReferenceError, w)
  end.

(** [cls(...)]: a new object with a fresh identity. *)
Definition new_reminder (o : reminder) : M loc := λ w,
  let r := fresh (dom (reminder_objs w)) in
  (Return r, with_reminder_objs <[r := o]> w).

(** [datetime.datetime.now()]: the next reading of the wall clock. *)
Definition datetime_now : M datetime := λ w,
  (Return (clock w (ticks w)), with_ticks S w).

(** [datetime.date.today()] *)
Definition date_today : M date := dt_date <$> datetime_now.

Definition print (line : string) : M unit := λ w,
  (Return (), with_stdout (λ out, out ++ [line]) w).

(** [open(filename, "w")] followed by [json.dump(data, file, indent=4)] *)
Definition json_dump_file (filename : string) (data : json) : M unit := λ w,
  (Return (), with_files <[filename := Document data]> w).

(** [open(filename, "r")] followed by [json.load(file)] *)
Definition json_load_file (filename : string) : M json := λ w,
  match files w !! filename with
  | Some (Document data) => (Return data, w)
  | Some Malformed => (Raise JSONDecodeError, w)
  | None => (Raise FileNotFoundError, w)
  end.

(** [for x in xs: acc = body(x, acc)] *)
Fixpoint for_each {A B} (xs : list A) (body : A → B → M B) (acc : B) : M B :=
  match xs with
  | [] => mret acc
  | x :: xs' => acc' ← body x acc; for_each xs' body acc'
  end.

(** [cls()] for [Calendar]: a new object with a fresh identity. *)
Definition new_calendar (o : calendar) : M loc := λ w,
  let c := fresh (dom (calendar_objs w)) in
  (Return c, with_calendar_objs <[c := o]> w).

(** [time.sleep(seconds)]: the process waits; what the clock reads next is
    up to the clock. *)
Definition time_sleep (seconds : Z) : M unit := mret ().

(** ** Classes as name spaces

    A class body is executed top to bottom and each [def] binds its name in
    the class dictionary, so a later [def] of the same name replaces the
    earlier one. *)

Record pydef := Def {
  def_name : string;
  def_params : list string;
  def_line : nat
}.

Definition class_dict (body : list pydef) : gmap string pydef :=
  foldl (λ ns d, <[def_name d := d]> ns) ∅ body.

(** The [def]s in the body of [class Calendar], in source order.  The one
    of line 119 prompts on the console for a title and two times of day; a
    call that passes a reminder does not reach its body. *)
Definition Calendar_body : list pydef := [
  Def "__init__" ["self"] 60;
  Def "add_reminder" ["self"; "reminder"] 64;
  Def "remove_reminder" ["self"; "reminder"] 67;
  Def "mark_reminder_as_done" ["self"; "reminder"] 70;
  Def "save_completion_data" ["self"] 79;
  Def "serialize" ["self"] 94;
  Def "save_reminders_to_file" ["self"; "filename"] 98;
  Def "load_reminders_from_file" ["cls"; "filename"] 104;
  Def "start_clock" ["self"] 110;
  Def "add_reminder" ["self"] 119
]%nat.

Section Dispatch.
Context {Arg Res : Type}.

(** What running the body of a [def] on bound arguments does. *)
Variable run_body : pydef → list Arg → M Res.

(** [receiver.name(args)]: look [name] up in the class of the receiver
    ([AttributeError] when it binds none), bind the receiver and [args] to
    the positional parameters ([TypeError] when their numbers differ),
    run the body. *)
Definition call (ns : gmap string pydef) (name : string) (args : list Arg) : M Res :=
  match ns !! name with
  | None => raise AttributeError
  | Some d =>
      if decide (length (def_params d) = S (length args))
      then run_body d args
      else raise TypeError
  end.
End Dispatch.

(** ** class Reminder *)

Definition set_done (b : bool) (o : reminder) : reminder :=
  MkReminder (title o) (start_time o) (end_time o) b (triggered o)
    (trigger_count o) (done_count o) (repetitions o)
    (bank_holiday_adjustment o) (permanent_offset o).

Definition set_triggered (b : bool) (o : reminder) : reminder :=
  MkReminder (title o) (start_time o) (end_time o) (done o) b
    (trigger_count o) (done_count o) (repetitions o)
    (bank_holiday_adjustment o) (permanent_offset o).

Definition set_trigger_count (n : Z) (o : reminder) : reminder :=
  MkReminder (title o) (start_time o) (end_time o) (done o) (triggered o)
    n (done_count o) (repetitions o)
    (bank_holiday_adjustment o) (permanent_offset o).

Definition set_done_count (n : Z) (o : reminder) : reminder :=
  MkReminder (title o) (start_time o) (end_time o) (done o) (triggered o)
    (trigger_count o) n (repetitions o)
    (bank_holiday_adjustment o) (permanent_offset o).

(** The mapping [Reminder.serialize] returns and [Reminder.deserialize]
    reads, by its six keys: a mapping that has them all, with values of the
    types [serialize] gives them.  [deserialize] of a mapping that lacks a
    key or holds a time that is no string is outside this model. *)
Record reminder_data := MkReminderData {
  data_title : string;
  data_start_time : string;
  data_end_time : string;
  data_repetitions : list string;
  data_bank_holiday_adjustment : bool;
  data_permanent_offset : bool
}.

(** [repetitions or []], where [None] is the default of the parameter. *)
Definition or_empty (repetitions : option (list string)) : list string :=
  match repetitions with
  | Some (x :: l) => x :: l
  | Some [] | None => []
  end.

Module Reminder.

(** [__init__] *)
Definition init (title : string) (start_time end_time : datetime)
    (repetitions : option (list string))
    (bank_holiday_adjustment permanent_offset : bool) : reminder :=
  {| title := title;
     start_time := start_time;
     end_time := end_time;
     done := false;
     triggered := false;
     trigger_count := 0;
     done_count := 0;
     repetitions := or_empty repetitions;
     bank_holiday_adjustment := bank_holiday_adjustment;
     permanent_offset := permanent_offset |}.

Definition check_notification (self : loc) : M unit :=
  now ← datetime_now;
  let current_time := dt_time now in
  me ← get_reminder self;
  if negb (triggered me)
     && (time_le (dt_time (start_time me)) current_time
         && time_le current_time (dt_time (end_time me)))
  then
    print ("Reminder: " +:+ title me +:+ " - It's time!");;
    update_reminder self (set_triggered true);;
    update_reminder self (λ o, set_trigger_count (trigger_count o + 1) o);;
    me ← get_reminder self;
    if done me
    then update_reminder self (λ o, set_done_count (done_count o + 1) o)
    else mret ()
  else mret ().

Definition mark_as_done (self : loc) : M unit :=
  update_reminder self (set_done true).

Definition serialize (self : loc) : M reminder_data :=
  me ← get_reminder self;
  mret {| data_title := title me;
          data_start_time := strftime_Ymd_HM (start_time me);
          data_end_time := strftime_Ymd_HM (end_time me);
          data_repetitions := repetitions me;
          data_bank_holiday_adjustment := bank_holiday_adjustment me;
          data_permanent_offset := permanent_offset me |}.

Definition deserialize (data : reminder_data) : M loc :=
  start_time ← lift (strptime_Ymd_HM (data_start_time data));
  end_time ← lift (strptime_Ymd_HM (data_end_time data));
  new_reminder
    (init (data_title data) start_time end_time
       (Some (data_repetitions data))
       (data_bank_holiday_adjustment data)
       (data_permanent_offset data)).

End Reminder.

(** ** class Calendar *)

(** [list.remove(x)]: drop the first item equal to [x]; [None] stands for
    the [ValueError] of a list that holds no such item. *)
Fixpoint list_remove (x : loc) (l : list loc) : option (list loc) :=
  match l with
  | [] => None
  | y :: l' => if decide (y = x) then Some l' else (y ::.) <$> list_remove x l'
  end.

Definition set_reminders (l : list loc) (c : calendar) : calendar :=
  MkCalendar l (completed_tasks c).

Definition set_completed_tasks (l : list completed_task) (c : calendar) : calendar :=
  MkCalendar (reminders c) l.

(** The dict [Calendar.serialize] returns. *)
Record calendar_data := MkCalendarData {
  data_reminders : list reminder_data;
  data_completed_tasks : list completed_task
}.

Definition json_of_reminder_data (d : reminder_data) : json :=
  JObject [
    ("title", JString (data_title d));
    ("start_time", JString (data_start_time d));
    ("end_time", JString (data_end_time d));
    ("repetitions", JArray (JString <$> data_repetitions d));
    ("bank_holiday_adjustment", JBool (data_bank_holiday_adjustment d));
    ("permanent_offset", JBool (data_permanent_offset d))
  ].

Definition json_of_completed_task (t : completed_task) : json :=
  JObject [("title", JString (task_title t)); ("date", JString (task_date t))].

Definition json_of_calendar_data (d : calendar_data) : json :=
  JObject [
    ("reminders", JArray (json_of_reminder_data <$> data_reminders d));
    ("completed_tasks", JArray (json_of_completed_task <$> data_completed_tasks d))
  ].

(** A record of the daily snapshot that [save_completion_data] writes. *)
Definition completion_record (today : string) (o : reminder) : json :=
  JObject [
    ("title", JString (title o));
    ("date", JString today);
    ("trigger_count", JInt (trigger_count o));
    ("done_count", JInt (done_count o))
  ].

Module Calendar.

(** The class dictionary of [Calendar]. *)
Definition namespace : gmap string pydef := class_dict Calendar_body.

(** [add_reminder(self, reminder)], the [def] of line 64. *)
Definition add_reminder (self : loc) (reminder : loc) : M unit :=
  update_calendar self (λ c, set_reminders (reminders c ++ [reminder]) c).

Definition remove_reminder (self : loc) (reminder : loc) : M unit :=
  c ← get_calendar self;
  match list_remove reminder (reminders c) with
  | Some l => update_calendar self (set_reminders l)
  | None => raise ValueError
  end.

Definition mark_reminder_as_done (self : loc) (reminder : loc) : M unit :=
  Reminder.mark_as_done reminder;;
  r ← get_reminder reminder;
  today ← date_today;
  update_calendar self (λ c,
    set_completed_tasks
      (completed_tasks c ++ [MkCompleted (title r) (strftime_Ymd today)]) c);;
  print "Reminder marked as done.".

(** The body of the loop of [save_completion_data]. *)
Definition completion_step (today : string) (reminder : loc)
    (completion_data : list json) : M (list json) :=
  r ← get_reminder reminder;
  let completion_data := completion_data ++ [completion_record today r] in
  update_reminder reminder (set_triggered false);;
  mret completion_data.

Definition save_completion_data (self : loc) : M unit :=
  today ← strftime_Ymd <$> date_today;
  c ← get_calendar self;
  completion_data ← for_each (reminders c) (completion_step today) [];
  json_dump_file ("completion_data_" +:+ today +:+ ".json") (JArray completion_data);;
  print "Completion data saved.".

Definition serialize (self : loc) : M calendar_data :=
  c ← get_calendar self;
  reminders_data ←
    for_each (reminders c) (λ reminder acc,
      d ← Reminder.serialize reminder; mret (acc ++ [d])) [];
  mret (MkCalendarData reminders_data (completed_tasks c)).

Definition save_reminders_to_file (self : loc) (filename : string) : M unit :=
  data ← serialize self;
  json_dump_file filename (json_of_calendar_data data).

Section Load.
(** What running a [def] of the class on the loaded document does. *)
Variable run_body : pydef → list json → M loc.

(** The class method [load_reminders_from_file(cls, filename)]; it
    calls [cls.deserialize(data)]. *)
Definition load_reminders_from_file (filename : string) : M loc :=
  data ← json_load_file filename;
  calendar ← call run_body namespace "deserialize" [data];
  mret calendar.
End Load.

(** [__init__] *)
Definition init : calendar := MkCalendar [] [].

(** [Calendar()] *)
Definition new : M loc := new_calendar init.

(** The body of the inner loop of [start_clock]. *)
Definition clock_step (current_time : time) (reminder : loc) (_ : unit) : M unit :=
  r ← get_reminder reminder;
  if time_le (dt_time (start_time r)) current_time
     && time_le current_time (dt_time (end_time r))
  then Reminder.check_notification reminder
  else mret ().

(** One round of the loop of [start_clock]. *)
Definition clock_round (self : loc) : M unit :=
  now ← datetime_now;
  let current_time := dt_time now in
  c ← get_calendar self;
  for_each (reminders c) (clock_step current_time) ();;
  time_sleep 60.

(** [start_clock] is [while True]: it has no exit of its own.  Its first
    [rounds] rounds, for any [rounds]. *)
Fixpoint start_clock (rounds : nat) (self : loc) : M unit :=
  match rounds with
  | O => mret ()
  | S n => clock_round self;; start_clock n self
  end.

End Calendar.

(** ** The view helper [display_day_breakdown] *)

(** [sep.join(items)] *)
Fixpoint join (sep : string) (items : list string) : string :=
  match items with
  | [] => ""
  | [x] => x
  | x :: rest => x +:+ sep +:+ join sep rest
  end.

(** [str(b)] for a [bool] *)
Definition str_bool (b : bool) : string := if b then "True" else "False".

(** [dt.strftime("%H:%M")] *)
Definition strftime_HM (dt : datetime) : string :=
  zero_padded 2 (hour (dt_time dt)) (String ":" (zero_padded 2 (minute (dt_time dt)) "")).

(** [a < b] on naive [datetime] values. *)
Definition datetime_lt (a b : datetime) : bool :=
  match datetime_cmp a b with Lt => true | _ => false end.

(** [list.sort(key=...)] is a stable sort that compares keys with [<]
    alone.  On the list of (key, item) pairs: an item moves behind the
    items whose key is strictly smaller and stays ahead of the others. *)
Fixpoint insert_by_key {A} (x : datetime * A) (l : list (datetime * A)) : list (datetime * A) :=
  match l with
  | [] => [x]
  | y :: l' =>
      if datetime_lt y.1 x.1 then y :: insert_by_key x l' else x :: y :: l'
  end.

Definition sort_by_key {A} (l : list (datetime * A)) : list (datetime * A) :=
  foldr insert_by_key [] l.

(** The body of the list comprehension: keep the reminders that start on
    [day]. *)
Definition day_filter_step (day : date) (reminder : loc) (events : list loc) : M (list loc) :=
  r ← get_reminder reminder;
  mret (if decide (dt_date (start_time r) = day) then events ++ [reminder] else events).

(** The key function of the sort, [lambda r: r.start_time], applied once
    to each item. *)
Definition sort_key_step (reminder : loc) (keyed : list (datetime * loc)) : M (list (datetime * loc)) :=
  r ← get_reminder reminder;
  mret (keyed ++ [(start_time r, reminder)]).

(** The seven lines printed for one reminder. *)
Definition breakdown_lines (r : reminder) : list string := [
  "Title: " +:+ title r;
  "Start Time: " +:+ strftime_HM (start_time r);
  "End Time: " +:+ strftime_HM (end_time r);
  "Repetitions: " +:+ join ", " (repetitions r);
  "Bank Holiday Adjustment: " +:+ str_bool (bank_holiday_adjustment r);
  "Permanent Offset: " +:+ str_bool (permanent_offset r);
  ""
].

(** The body of the printing loop. *)
Definition breakdown_step (reminder : loc) (_ : unit) : M unit :=
  r ← get_reminder reminder; print ("Title: " +:+ title r);;
  r ← get_reminder reminder; print ("Start Time: " +:+ strftime_HM (start_time r));;
  r ← get_reminder reminder; print ("End Time: " +:+ strftime_HM (end_time r));;
  r ← get_reminder reminder; print ("Repetitions: " +:+ join ", " (repetitions r));;
  r ← get_reminder reminder;
  print ("Bank Holiday Adjustment: " +:+ str_bool (bank_holiday_adjustment r));;
  r ← get_reminder reminder;
  print ("Permanent Offset: " +:+ str_bool (permanent_offset r));;
  print "".

Definition display_day_breakdown (calendar : loc) (day : date) : M unit :=
  c ← get_calendar calendar;
  events ← for_each (reminders c) (day_filter_step day) [];
  keyed ← for_each events sort_key_step [];
  let events := (sort_by_key keyed).*2 in
  for_each events breakdown_step ().

(** ** The entry point

    [main] creates a calendar and calls [start_clock], which does not
    return: the statements after the call are never run.  Its first
    [rounds] rounds of polling, for any [rounds]. *)
Definition main (rounds : nat) : M unit :=
  calendar ← Calendar.new;
  Calendar.start_clock rounds calendar.

(** ** Client programs

    A call of one of the operations above; a client makes any number of
    them, in any order, and may catch what they raise.  [AppendReminder] is
    [self.reminders.append(reminder)], the body of the [def] of line 64 and
    the last step of the one of line 119. *)
Inductive op :=
  | CheckNotification (r : loc)
  | MarkAsDone (r : loc)
  | SerializeReminder (r : loc)
  | DeserializeReminder (data : reminder_data)
  | NewCalendar
  | AppendReminder (c r : loc)
  | RemoveReminder (c r : loc)
  | MarkReminderAsDone (c r : loc)
  | SaveCompletionData (c : loc)
  | SerializeCalendar (c : loc)
  | SaveRemindersToFile (c : loc) (filename : string)
  | ClockRound (c : loc)
  | DisplayDayBreakdown (c : loc) (day : date).

Definition run_op (o : op) : M unit :=
  match o with
  | CheckNotification r => Reminder.check_notification r
  | MarkAsDone r => Reminder.mark_as_done r
  | SerializeReminder r => Reminder.serialize r;; mret ()
  | DeserializeReminder data => Reminder.deserialize data;; mret ()
  | NewCalendar => Calendar.new;; mret ()
  | AppendReminder c r => Calendar.add_reminder c r
  | RemoveReminder c r => Calendar.remove_reminder c r
  | MarkReminderAsDone c r => Calendar.mark_reminder_as_done c r
  | SaveCompletionData c => Calendar.save_completion_data c
  | SerializeCalendar c => Calendar.serialize c;; mret ()
  | SaveRemindersToFile c filename => Calendar.save_reminders_to_file c filename
  | ClockRound c => Calendar.clock_round c
  | DisplayDayBreakdown c day => display_day_breakdown c day
  end.

(** The world after the calls [ops], one after the other, whether they
    return or raise. *)
Fixpoint run_ops (ops : list op) (w : world) : world :=
  match ops with
  | [] => w
  | o :: ops' => run_ops ops' (run_op o w).2
  end.

(** ** Vocabulary of the statements *)

(** The current time of day lies in the window of the reminder, both ends
    included; the dates of [start_time] and [end_time] play no part. *)
Definition in_window (o : reminder) (now : time) : bool :=
  time_le (dt_time (start_time o)) now && time_le now (dt_time (end_time o)).

(** The reminder after a notification. *)
Definition notified (o : reminder) : reminder :=
  MkReminder (title o) (start_time o) (end_time o) (done o) true
    (trigger_count o + 1)
    (if done o then done_count o + 1 else done_count o)
    (repetitions o) (bank_holiday_adjustment o) (permanent_offset o).

(** No seconds and no fraction of a second: the value is a whole minute. *)
Definition whole_minute (dt : datetime) : bool :=
  (second (dt_time dt) =? 0) && (microsecond (dt_time dt) =? 0).

(** The store in which every reminder of the list [l] has [triggered]
    reset and every other object is as before. *)
Definition reset_triggered (l : list loc) (objs : gmap loc reminder) : gmap loc reminder :=
  map_imap (λ r o, Some (if bool_decide (r ∈ l) then set_triggered false o else o)) objs.

(** The record the loop writes for [l] is the record of [o]. *)
Definition recorded_as (today : string) (w : world) (l : loc) (o : reminder) : Prop :=
  ∃ o', reminder_objs w !! l = Some o' ∧
        completion_record today o' = completion_record today o.

(** [dt] without its seconds and microseconds. *)
Definition to_minute (dt : datetime) : datetime :=
  MkDateTime (dt_date dt) (MkTime (hour (dt_time dt)) (minute (dt_time dt)) 0 0).

(** The mapping that [Reminder.serialize] returns for a reminder in state
    [o]. *)
Definition data_of (o : reminder) : reminder_data :=
  {| data_title := title o;
     data_start_time := strftime_Ymd_HM (start_time o);
     data_end_time := strftime_Ymd_HM (end_time o);
     data_repetitions := repetitions o;
     data_bank_holiday_adjustment := bank_holiday_adjustment o;
     data_permanent_offset := permanent_offset o |}.

(** One to four digits: a year as [strftime] writes it. *)
Definition p_upto4 : parser Z := λ s,
  '(a, s1) ← p_digit s;
  match p_digit s1 with
  | None => Some (a, s1)
  | Some (b, s2) =>
      match p_digit s2 with
      | None => Some (10 * a + b, s2)
      | Some (c, s3) =>
          match p_digit s3 with
          | None => Some (100 * a + 10 * b + c, s3)
          | Some (d, s4) => Some (1000 * a + 100 * b + 10 * c + d, s4)
          end
      end
  end.

(** Reads a date as [strftime] writes it in the format ["%Y-%m-%d"] off
    the front of a string. *)
Definition read_date (s : string) : option date :=
  '(y, s) ← p_upto4 s; '(_, s) ← p_char "-" s;
  '(m, s) ← p_upto2 1 12 s; '(_, s) ← p_char "-" s;
  '(d, s) ← p_upto2 1 31 s;
  Some (MkDate y m d).

(** A reminder is due at [t]: its window contains [t] and it has not been
    triggered. *)
Definition due (t : time) (o : reminder) : bool := in_window o t && negb (triggered o).

Definition poll_one (t : time) (o : reminder) : reminder :=
  if due t o then notified o else o.

(** The store in which every reminder of the list [l] that is due at [t]
    has been notified and every other object is as before. *)
Definition poll_objs (t : time) (l : list loc) (objs : gmap loc reminder) : gmap loc reminder :=
  map_imap (λ r o, Some (if bool_decide (r ∈ l) then poll_one t o else o)) objs.

(** The line [check_notification] prints. *)
Definition notification (o : reminder) : string :=
  "Reminder: " +:+ title o +:+ " - It's time!".

(** The order of the sort on (key, item) pairs. *)
Definition key_le {A} (x y : datetime * A) : Prop := datetime_le x.1 y.1 = true.

(** A reference paired with the state of the object it names. *)
Definition live (w : world) (p : loc * reminder) : Prop :=
  reminder_objs w !! p.1 = Some p.2.

(** A computation keeps [I] when [I] holds of the world it leaves, whether
    it returns or raises, whenever [I] held before. *)
Definition keeps {A} (I : world → Prop) (m : M A) : Prop :=
  ∀ w, I w → I (m w).2.

(** What may have happened to a reminder between two moments: what
    describes it is the same, [done] has not been cleared, and neither
    counter has gone down. *)
Definition evolved (o o' : reminder) : Prop :=
  title o' = title o ∧ start_time o' = start_time o ∧ end_time o' = end_time o ∧
  repetitions o' = repetitions o ∧
  bank_holiday_adjustment o' = bank_holiday_adjustment o ∧
  permanent_offset o' = permanent_offset o ∧
  (done o = true → done o' = true) ∧
  trigger_count o ≤ trigger_count o' ∧ done_count o ≤ done_count o'.

Definition evolved_from (h0 : gmap loc reminder) (w : world) : Prop :=
  ∀ r o, h0 !! r = Some o → ∃ o', reminder_objs w !! r = Some o' ∧ evolved o o'.

Definition evolving (f : reminder → reminder) : Prop := ∀ o, evolved o (f o).

(** The counters of a reminder are consistent: notifications while done
    are notifications, and a triggered reminder has been notified. *)
Definition counters_ok (o : reminder) : Prop :=
  0 ≤ done_count o ≤ trigger_count o ∧ (triggered o = true → 1 ≤ trigger_count o).

Definition all_counters_ok (w : world) : Prop :=
  map_Forall (λ _, counters_ok) (reminder_objs w).

Definition log_grown_from (c0 : gmap loc calendar) (w : world) : Prop :=
  ∀ c o, c0 !! c = Some o →
    ∃ o', calendar_objs w !! c = Some o' ∧
          completed_tasks o `prefix_of` completed_tasks o'.

Definition log_growing (f : calendar → calendar) : Prop :=
  ∀ o, completed_tasks o `prefix_of` completed_tasks (f o).

(** ** Sample objects, after the demonstration in [main] *)

Definition at_ (y m d H M : Z) : datetime := MkDateTime (MkDate y m d) (MkTime H M 0 0).

Definition meeting : reminder :=
  Reminder.init "Meeting" (at_ 2023 6 7 14 0) (at_ 2023 6 7 15 0) None false false.

Definition exercise : reminder :=
  Reminder.init "Exercise" (at_ 2023 6 8 8 0) (at_ 2023 6 8 9 0)
    (Some ["Monday"; "Wednesday"; "Friday"]) false false.

(** A reminder that ends the day before it starts. *)
Definition backdated : reminder :=
  Reminder.init "Exercise" (at_ 2023 6 8 8 0) (at_ 2023 6 7 9 0) None false false.

(** A reminder from 22:00 to 06:00 the next day. *)
Definition night_shift : reminder :=
  Reminder.init "Night shift" (at_ 2023 6 7 22 0) (at_ 2023 6 8 6 0) None false false.

(** A reminder later on the day of [meeting]. *)
Definition review : reminder :=
  Reminder.init "Review" (at_ 2023 6 7 16 0) (at_ 2023 6 7 17 0) (Some ["Wednesday"]) true false.

(** A reminder whose times are not whole minutes, already notified twice. *)
Definition standup : reminder :=
  MkReminder "Stand-up"
    (MkDateTime (MkDate 2023 6 7) (MkTime 9 15 30 500000))
    (MkDateTime (MkDate 2023 6 7) (MkTime 9 30 59 999999))
    true true 2 1 ["Monday"; "Friday"] true false.

(** A reminder in the last hour of the year 999. *)
Definition vigil : reminder :=
  Reminder.init "Vigil" (at_ 999 12 31 23 0) (at_ 999 12 31 23 59) None false false.

(** A reminder that starts half a second after 14:00:00. *)
Definition late_start : reminder :=
  Reminder.init "Meeting"
    (MkDateTime (MkDate 2023 6 7) (MkTime 14 0 0 500000)) (at_ 2023 6 7 15 0)
    None false false.

(** A reminder that ends the day before it starts, from the first instant
    of a day to the last. *)
Definition backdated_all_day : reminder :=
  Reminder.init "Exercise"
    (at_ 2023 6 8 0 0) (MkDateTime (MkDate 2023 6 7) (MkTime 23 59 59 999999))
    None false false.

(** A session of a client on a calendar (object 1) and a reminder
    (object 2). *)
Definition sample_session : list op := [
  MarkReminderAsDone 1%positive 2%positive;
  CheckNotification 2%positive;
  SaveCompletionData 1%positive;
  ClockRound 1%positive;
  DeserializeReminder (data_of meeting);
  RemoveReminder 1%positive 2%positive;
  RemoveReminder 1%positive 2%positive;
  DisplayDayBreakdown 1%positive (MkDate 2023 6 7)
].

(** A world with the given reminders and one calendar, object 1, which
    lists [listed]; the clock reads [now] at every call. *)
Definition sample_world (objs : gmap loc reminder) (listed : list loc) (now : datetime) : world :=
  {| reminder_objs := objs;
     calendar_objs := {[ 1%positive := MkCalendar listed [] ]};
     files := ∅;
     stdout := [];
     clock := λ _, now;
     ticks := 0 |}.

(** * Properties *)

(** ** Running computations *)

Lemma bind_run {A B} (m : M A) (f : A → M B) w :
  (m ≫= f) w =
    match m w with
    | (Return a, w') => f a w'
    | (Raise e, w') => (Raise e, w')
    end.
Proof. reflexivity. Qed.

Lemma get_reminder_run w r o :
  reminder_objs w !! r = Some o → get_reminder r w = (Return o, w).
Proof. intros H. unfold get_reminder. by rewrite H. Qed.

Lemma update_reminder_run w r o f :
  reminder_objs w !! r = Some o →
  update_reminder r f w = (Return (), with_reminder_objs <[r := f o]> w).
Proof. intros H. unfold update_reminder. by rewrite H. Qed.

Lemma get_calendar_run w c o :
  calendar_objs w !! c = Some o → get_calendar c w = (Return o, w).
Proof. intros H. unfold get_calendar. by rewrite H. Qed.

Lemma update_calendar_run w c o f :
  calendar_objs w !! c = Some o →
  update_calendar c f w = (Return (), with_calendar_objs <[c := f o]> w).
Proof. intros H. unfold update_calendar. by rewrite H. Qed.

(** ** The order on times of day *)

Lemma time_le_spec a b :
  time_le a b = true ↔
  hour a < hour b ∨ (hour a = hour b ∧
    (minute a < minute b ∨ (minute a = minute b ∧
      (second a < second b ∨ (second a = second b ∧
        microsecond a ≤ microsecond b))))).
Proof.
  unfold time_le, time_cmp, lex.
  destruct (Z.compare_spec (hour a) (hour b)); [|intuition lia..].
  destruct (Z.compare_spec (minute a) (minute b)); [|intuition lia..].
  destruct (Z.compare_spec (second a) (second b)); [|intuition lia..].
  destruct (Z.compare_spec (microsecond a) (microsecond b)); intuition lia.
Qed.

Lemma time_le_trans a b c :
  time_le a b = true → time_le b c = true → time_le a c = true.
Proof. rewrite !time_le_spec. lia. Qed.

(** A window whose start is after its end contains no time of day. *)
Lemma inverted_window_empty o now :
  time_le (dt_time (start_time o)) (dt_time (end_time o)) = false →
  in_window o now = false.
Proof.
  intros Hinv. unfold in_window.
  destruct (time_le (dt_time (start_time o)) now) eqn:H1; [|done].
  destruct (time_le now (dt_time (end_time o))) eqn:H2; [|done].
  by rewrite (time_le_trans _ _ _ H1 H2) in Hinv.
Qed.

(** ** [check_notification] *)

Lemma check_notification_run w self me :
  reminder_objs w !! self = Some me →
  Reminder.check_notification self w =
    (Return (),
     if negb (triggered me) && in_window me (dt_time (clock w (ticks w)))
     then with_stdout (λ out, out ++ ["Reminder: " +:+ title me +:+ " - It's time!"])
            (with_reminder_objs <[self := notified me]> (with_ticks S w))
     else with_ticks S w).
Proof.
  intros Hme. unfold Reminder.check_notification, in_window.
  rewrite bind_run. cbn [datetime_now].
  rewrite bind_run, (get_reminder_run _ _ me) by done.
  destruct (negb (triggered me) && _) eqn:Hc; [|done].
  rewrite bind_run. cbn [print].
  rewrite bind_run, (update_reminder_run _ _ me) by done.
  rewrite bind_run, (update_reminder_run _ _ (set_triggered true me))
    by (cbn; apply lookup_insert_eq).
  rewrite bind_run. erewrite get_reminder_run by (cbn; apply lookup_insert_eq).
  cbn [done set_trigger_count set_triggered].
  destruct (done me) eqn:Hd.
  - erewrite update_reminder_run by (cbn; apply lookup_insert_eq).
    unfold with_stdout, with_reminder_objs, with_ticks; cbn.
    rewrite !insert_insert_eq.
    unfold notified, set_done_count, set_trigger_count, set_triggered. cbn.
    by rewrite Hd.
  - unfold mret, M_ret, with_stdout, with_reminder_objs, with_ticks; cbn.
    rewrite !insert_insert_eq.
    unfold notified, set_trigger_count, set_triggered. cbn.
    by rewrite Hd.
Qed.

(** C4.  [check_notification] reads the clock and compares the time of day
    alone with the times of day of [start_time] and [end_time].  When
    [triggered] is false and the time of day is in the closed window, it
    prints the notification, sets [triggered], adds 1 to [trigger_count],
    and adds 1 to [done_count] exactly when [done] is true; otherwise no
    object, file or output changes. *)
Theorem check_notification_spec w self me :
  reminder_objs w !! self = Some me →
  let now := dt_time (clock w (ticks w)) in
  Reminder.check_notification self w =
    (Return (),
     if negb (triggered me)
        && (time_le (dt_time (start_time me)) now
            && time_le now (dt_time (end_time me)))
     then
       with_stdout (λ out, out ++ ["Reminder: " +:+ title me +:+ " - It's time!"])
         (with_reminder_objs
            <[self := MkReminder (title me) (start_time me) (end_time me)
                        (done me) true (trigger_count me + 1)
                        (if done me then done_count me + 1 else done_count me)
                        (repetitions me) (bank_holiday_adjustment me)
                        (permanent_offset me)]>
            (with_ticks S w))
     else with_ticks S w).
Proof. intros Hme now. by rewrite (check_notification_run w self me). Qed.

Lemma check_notification_spec_witness :
  let w := sample_world {[ 2%positive := meeting ]} [2%positive] (at_ 2023 6 7 14 30) in
  reminder_objs w !! 2%positive = Some meeting ∧
  Reminder.check_notification 2%positive w =
    (Return (),
     with_stdout (λ out, out ++ ["Reminder: Meeting - It's time!"])
       (with_reminder_objs <[2%positive := notified meeting]> (with_ticks S w))).
Proof.
  intros w. split; [reflexivity|].
  exact (check_notification_spec w 2%positive meeting eq_refl).
Defined.

(** C5, as amended.  When the window contains the time of day of the first
    call, two calls in a row add to [trigger_count] at most once: once when
    [triggered] was false before the first call and not at all when it was
    already true.  The second call changes no object, file or output,
    whatever the clock reads then, because [triggered] is true after the
    first call. *)
Theorem check_notification_twice w self me :
  reminder_objs w !! self = Some me →
  in_window me (dt_time (clock w (ticks w))) = true →
  ∃ w1 me1,
    Reminder.check_notification self w = (Return (), w1) ∧
    reminder_objs w1 !! self = Some me1 ∧
    triggered me1 = true ∧
    trigger_count me1 = trigger_count me + (if triggered me then 0 else 1) ∧
    Reminder.check_notification self w1 = (Return (), with_ticks S w1).
Proof.
  intros Hme Hwin. rewrite (check_notification_run w self me Hme), Hwin, andb_true_r.
  destruct (triggered me) eqn:Ht; cbn [negb].
  - exists (with_ticks S w), me. repeat split; [done|done|lia|].
    rewrite (check_notification_run _ self me) by done. by rewrite Ht.
  - eexists _, (notified me). split; [done|].
    assert (reminder_objs
              (with_stdout (λ out, out ++ ["Reminder: " +:+ title me +:+ " - It's time!"])
                 (with_reminder_objs <[self := notified me]> (with_ticks S w)))
              !! self = Some (notified me)) as Hme1
      by (cbn; apply lookup_insert_eq).
    repeat split; [done|].
    by rewrite (check_notification_run _ self (notified me) Hme1).
Qed.

Lemma check_notification_twice_witness :
  let w := sample_world {[ 2%positive := meeting ]} [2%positive] (at_ 2023 6 7 14 30) in
  reminder_objs w !! 2%positive = Some meeting ∧
  in_window meeting (dt_time (clock w (ticks w))) = true ∧
  ∃ w1 me1,
    Reminder.check_notification 2%positive w = (Return (), w1) ∧
    reminder_objs w1 !! 2%positive = Some me1 ∧
    triggered me1 = true ∧
    trigger_count me1 = 0 + 1 ∧
    Reminder.check_notification 2%positive w1 = (Return (), with_ticks S w1).
Proof.
  intros w. split; [reflexivity|]. split; [reflexivity|].
  exact (check_notification_twice w 2%positive meeting eq_refl eq_refl).
Defined.

(** C5, as stated, fails for a reminder that is already triggered: the
    window of [notified meeting] (14:00 to 15:00) contains 14:30, and two
    calls leave its [trigger_count] at 1 instead of adding one to it. *)
Lemma check_notification_twice_already_triggered :
  let w := sample_world {[ 2%positive := notified meeting ]} [2%positive] (at_ 2023 6 7 14 30) in
  in_window (notified meeting) (dt_time (at_ 2023 6 7 14 30)) = true ∧
  trigger_count (notified meeting) = 1 ∧
  ∃ w2,
    (Reminder.check_notification 2%positive;; Reminder.check_notification 2%positive) w
      = (Return (), w2) ∧
    trigger_count <$> reminder_objs w2 !! 2%positive = Some 1.
Proof.
  intros w. split; [reflexivity|]. split; [reflexivity|].
  eexists. split; [vm_compute; reflexivity|]. reflexivity.
Qed.

(** C9, as amended.  A reminder whose start time of day is strictly after
    its end time of day never triggers: at every reading of the clock
    [check_notification] takes the branch that does nothing. *)
Theorem inverted_window_never_triggers w self me :
  reminder_objs w !! self = Some me →
  time_le (dt_time (start_time me)) (dt_time (end_time me)) = false →
  Reminder.check_notification self w = (Return (), with_ticks S w).
Proof.
  intros Hme Hinv. rewrite (check_notification_run w self me Hme).
  by rewrite inverted_window_empty, andb_false_r.
Qed.

Lemma inverted_window_never_triggers_witness :
  let w := sample_world {[ 2%positive := night_shift ]} [2%positive] (at_ 2023 6 7 23 0) in
  reminder_objs w !! 2%positive = Some night_shift ∧
  time_le (dt_time (start_time night_shift)) (dt_time (end_time night_shift)) = false ∧
  Reminder.check_notification 2%positive w = (Return (), with_ticks S w).
Proof.
  intros w. split; [reflexivity|]. split; [reflexivity|].
  exact (inverted_window_never_triggers w 2%positive night_shift eq_refl eq_refl).
Defined.

(** C9, as stated, fails for [backdated]: its [start_time] is after its
    [end_time], which violates [start_time <= end_time], yet it neither
    never triggers nor always triggers: it triggers at 08:30 and does not
    at 10:00. *)
Lemma backdated_triggers_sometimes :
  let w1 := sample_world {[ 2%positive := backdated ]} [2%positive] (at_ 2023 6 8 8 30) in
  let w2 := sample_world {[ 2%positive := backdated ]} [2%positive] (at_ 2023 6 8 10 0) in
  datetime_le (start_time backdated) (end_time backdated) = false ∧
  Reminder.check_notification 2%positive w1 =
    (Return (),
     with_stdout (λ out, out ++ ["Reminder: Exercise - It's time!"])
       (with_reminder_objs <[2%positive := notified backdated]> (with_ticks S w1))) ∧
  Reminder.check_notification 2%positive w2 = (Return (), with_ticks S w2).
Proof.
  intros w1 w2. split; [reflexivity|]. split.
  - by rewrite (check_notification_run w1 2%positive backdated eq_refl).
  - by rewrite (check_notification_run w2 2%positive backdated eq_refl).
Qed.

(** An inverted reminder can also trigger at every time of day:
    [backdated_all_day] ends the day before it starts, and its times of day
    are the first and the last of a day. *)
Lemma backdated_all_day_triggers_always w self :
  reminder_objs w !! self = Some backdated_all_day →
  time_ok (dt_time (clock w (ticks w))) = true →
  datetime_le (start_time backdated_all_day) (end_time backdated_all_day) = false ∧
  Reminder.check_notification self w =
    (Return (),
     with_stdout (λ out, out ++ ["Reminder: Exercise - It's time!"])
       (with_reminder_objs <[self := notified backdated_all_day]> (with_ticks S w))).
Proof.
  intros Hme Hok. split; [reflexivity|].
  rewrite (check_notification_run w self _ Hme).
  assert (in_window backdated_all_day (dt_time (clock w (ticks w))) = true) as ->; [|done].
  unfold time_ok in Hok. repeat (apply andb_prop in Hok as [Hok ?]).
  repeat match goal with
  | H : (_ <=? _) = true |- _ => apply Z.leb_le in H
  | H : (_ <? _) = true |- _ => apply Z.ltb_lt in H
  end.
  unfold in_window. apply andb_true_intro.
  rewrite !time_le_spec. cbn. lia.
Qed.

(** ** Reading back what [strftime] wrote *)

Example strftime_meeting :
  strftime_Ymd_HM (MkDateTime (MkDate 2023 6 7) (MkTime 14 0 0 0)) = "2023-06-07 14:00".
Proof. reflexivity. Qed.

Example strptime_meeting :
  strptime_Ymd_HM "2023-06-07 14:00" = Return (MkDateTime (MkDate 2023 6 7) (MkTime 14 0 0 0)).
Proof. reflexivity. Qed.

Example strptime_unpadded :
  strptime_Ymd_HM "2023-6-7  9:5" = Return (MkDateTime (MkDate 2023 6 7) (MkTime 9 5 0 0)).
Proof. reflexivity. Qed.

Example strptime_no_such_day : strptime_Ymd_HM "2023-02-30 14:00" = Raise ValueError.
Proof. reflexivity. Qed.

Example strptime_trailing : strptime_Ymd_HM "2023-06-07 14:00:00" = Raise ValueError.
Proof. reflexivity. Qed.

Lemma digit_char_code n : Z.of_N (N_of_ascii (digit_char n)) = 48 + n mod 10.
Proof.
  pose proof (Z.mod_pos_bound n 10 ltac:(lia)) as Hb.
  unfold digit_char. rewrite N_ascii_embedding by lia. lia.
Qed.

Lemma digit_val_char n : digit_val (digit_char n) = Some (n mod 10).
Proof.
  pose proof (Z.mod_pos_bound n 10 ltac:(lia)) as Hb.
  unfold digit_val. rewrite digit_char_code.
  destruct (Z.leb_spec 48 (48 + n mod 10)); [|lia].
  destruct (Z.leb_spec (48 + n mod 10) 57); [|lia].
  cbn. f_equal. lia.
Qed.

Lemma is_space_digit n : is_space (digit_char n) = false.
Proof.
  pose proof (Z.mod_pos_bound n 10 ltac:(lia)) as Hb.
  unfold is_space. rewrite digit_char_code.
  destruct (Z.leb_spec (48 + n mod 10) 13); [lia|].
  destruct (Z.leb_spec (48 + n mod 10) 32); [lia|].
  by rewrite !andb_false_r.
Qed.

Lemma digit_char_not_space n : digit_char n ≠ " "%char.
Proof.
  intros H. pose proof (is_space_digit n) as Hs. rewrite H in Hs. discriminate.
Qed.

Lemma p_digit_char n s : p_digit (String (digit_char n) s) = Some (n mod 10, s).
Proof. unfold p_digit. by rewrite digit_val_char. Qed.

Lemma p_char_same c s : p_char c (String c s) = Some ((), s).
Proof. unfold p_char. by rewrite decide_True. Qed.

Ltac step_parser :=
  rewrite p_digit_char; cbn -[p_digit Z.mul Z.add Z.div Z.modulo Z.leb].

Ltac digits_value := Z.to_euclidean_division_equations; lia.

Lemma p_year_padded y s :
  0 ≤ y < 10000 → p_year (zero_padded 4 y s) = Some (y, s).
Proof.
  intros Hy. unfold p_year. cbn [zero_padded].
  do 4 step_parser. do 2 f_equal. digits_value.
Qed.

Lemma year_width_four y : 1000 ≤ y → year_width y = 4%nat.
Proof.
  intros Hy. unfold year_width.
  by rewrite !(proj2 (Z.ltb_ge _ _)) by lia.
Qed.

(** A year written on fewer than four digits is no [%Y]: one of the first
    four characters is the ["-"] that follows it. *)
Lemma p_year_short y s :
  y < 1000 → p_year (zero_padded (year_width y) y (String "-" s)) = None.
Proof.
  intros Hy. unfold p_year, year_width.
  destruct (Z.ltb_spec y 10); [cbn [zero_padded]; by repeat step_parser|].
  destruct (Z.ltb_spec y 100); [cbn [zero_padded]; by repeat step_parser|].
  destruct (Z.ltb_spec y 1000); [cbn [zero_padded]; by repeat step_parser|].
  lia.
Qed.

Lemma two_digits_value n : 0 ≤ n < 100 → 10 * (n / 10 mod 10) + n mod 10 = n.
Proof. intros Hn. digits_value. Qed.

Lemma p_upto2_padded lo hi n c s :
  0 ≤ n < 100 → lo ≤ n ≤ hi → digit_val c = None →
  p_upto2 lo hi (zero_padded 2 n (String c s)) = Some (n, String c s).
Proof.
  intros Hn Hr Hc. unfold p_upto2. cbn [zero_padded].
  step_parser. rewrite p_digit_char, two_digits_value by done.
  destruct (Z.leb_spec lo n); [|lia]. by destruct (Z.leb_spec n hi); [|lia].
Qed.

Lemma p_upto2_padded_end lo hi n :
  0 ≤ n < 100 → lo ≤ n ≤ hi →
  p_upto2 lo hi (zero_padded 2 n "") = Some (n, "").
Proof.
  intros Hn Hr. unfold p_upto2. cbn [zero_padded].
  step_parser. rewrite p_digit_char, two_digits_value by done.
  destruct (Z.leb_spec lo n); [|lia]. by destruct (Z.leb_spec n hi); [|lia].
Qed.

Lemma p_day_padded n c s :
  1 ≤ n ≤ 31 → digit_val c = None →
  p_day (zero_padded 2 n (String c s)) = Some (n, String c s).
Proof.
  intros Hn Hc. rewrite <- (p_upto2_padded 1 31 n c s) by (done || lia).
  cbn [zero_padded]. unfold p_day.
  destruct (decide _) as [Heq|]; [|done]. by apply digit_char_not_space in Heq.
Qed.

Lemma p_spaces_blank n s :
  p_spaces (String " " (zero_padded 2 n s)) = Some ((), zero_padded 2 n s).
Proof.
  unfold p_spaces. change (is_space " ") with true. cbn [zero_padded skip_spaces].
  by rewrite is_space_digit.
Qed.

Lemma day_at_most_31 y m d : d ≤ days_in_month y m → d ≤ 31.
Proof. unfold days_in_month. repeat case_match; lia. Qed.

(** [strptime] reads what [strftime] wrote as the same date, hour and
    minute, with no seconds. *)
Lemma strptime_strftime dt :
  datetime_ok dt = true → 1000 ≤ year (dt_date dt) →
  strptime_Ymd_HM (strftime_Ymd_HM dt) =
    Return (MkDateTime (dt_date dt)
              (MkTime (hour (dt_time dt)) (minute (dt_time dt)) 0 0)).
Proof.
  destruct dt as [[y m d] [H Mi s us]]. unfold datetime_ok. intros Hok Hy.
  apply andb_prop in Hok as [Hd Ht]. pose proof Hd as Hd'.
  unfold date_ok, time_ok in Hd', Ht.
  cbn [dt_date dt_time year month day hour minute second microsecond] in *.
  repeat (apply andb_prop in Hd' as [Hd' ?]).
  repeat (apply andb_prop in Ht as [Ht ?]).
  repeat match goal with
  | H : (_ <=? _) = true |- _ => apply Z.leb_le in H
  | H : (_ <? _) = true |- _ => apply Z.ltb_lt in H
  end.
  assert (d ≤ 31) by eauto using day_at_most_31.
  unfold strptime_Ymd_HM, strftime_Ymd_HM, strftime_date.
  cbn [dt_date dt_time year month day hour minute].
  rewrite year_width_four, p_year_padded by lia. cbn [mbind option_bind].
  rewrite p_char_same. cbn [mbind option_bind].
  rewrite p_upto2_padded by (done || lia). cbn [mbind option_bind].
  rewrite p_char_same. cbn [mbind option_bind].
  rewrite p_day_padded by (done || lia). cbn [mbind option_bind].
  rewrite p_spaces_blank. cbn [mbind option_bind].
  rewrite (p_upto2_padded 0 23 H ":") by (done || lia). cbn [mbind option_bind].
  rewrite p_char_same. cbn [mbind option_bind].
  rewrite p_upto2_padded_end by lia. cbn [mbind option_bind dt_date].
  by rewrite Hd.
Qed.

(** [strptime] rejects what [strftime] wrote for a year before 1000. *)
Lemma strptime_strftime_short_year dt :
  year (dt_date dt) < 1000 →
  strptime_Ymd_HM (strftime_Ymd_HM dt) = Raise ValueError.
Proof.
  intros Hy. unfold strptime_Ymd_HM, strftime_Ymd_HM, strftime_date.
  by rewrite p_year_short.
Qed.

Lemma strptime_strftime_whole_minute dt :
  datetime_ok dt = true → 1000 ≤ year (dt_date dt) → whole_minute dt = true →
  strptime_Ymd_HM (strftime_Ymd_HM dt) = Return dt.
Proof.
  intros Hok Hy Hmin. rewrite strptime_strftime by done.
  destruct dt as [dd [H Mi s us]]. unfold whole_minute in Hmin. cbn in *.
  apply andb_prop in Hmin as [->%Z.eqb_eq ->%Z.eqb_eq]. done.
Qed.

Lemma or_empty_list l : or_empty (Some l) = l.
Proof. by destruct l. Qed.

(** The round trip fails or loses something for two reminders whose
    [start_time] and [end_time] have zero seconds.  [vigil] is in the year
    999: [serialize] writes its times with a three-digit year, which
    [deserialize] does not parse, so the round trip raises [ValueError] and
    yields no reminder.  [late_start] starts at 14:00:00.500000: the round
    trip returns a reminder that starts at 14:00:00. *)
Lemma reminder_roundtrip_fails :
  let w := sample_world {[ 2%positive := vigil; 3%positive := late_start ]}
             [2%positive; 3%positive] (at_ 2023 6 7 14 30) in
  (datetime_ok (start_time vigil) = true ∧ datetime_ok (end_time vigil) = true ∧
   second (dt_time (start_time vigil)) = 0 ∧ second (dt_time (end_time vigil)) = 0 ∧
   Reminder.serialize 2%positive w =
     (Return (MkReminderData "Vigil" "999-12-31 23:00" "999-12-31 23:59" [] false false), w) ∧
   (Reminder.serialize 2%positive ≫= Reminder.deserialize) w = (Raise ValueError, w)) ∧
  (datetime_ok (start_time late_start) = true ∧ datetime_ok (end_time late_start) = true ∧
   second (dt_time (start_time late_start)) = 0 ∧
   second (dt_time (end_time late_start)) = 0 ∧
   ∃ r o w',
     (Reminder.serialize 3%positive ≫= Reminder.deserialize) w = (Return r, w') ∧
     reminder_objs w' !! r = Some o ∧
     start_time o = at_ 2023 6 7 14 0 ∧
     start_time o ≠ start_time late_start).
Proof.
  intros w. split.
  - by repeat (split; [reflexivity|]).
  - repeat (split; [reflexivity|]).
    exists (fresh (dom (reminder_objs w))). do 2 eexists.
    split; [reflexivity|]. split; [apply lookup_insert_eq|]. by split.
Qed.

(** C3.  For a reminder whose [start_time] and [end_time] are valid
    datetimes of a year from 1000 on and whole minutes (no seconds and no
    fraction of a second), [deserialize] of [serialize] builds a new
    reminder with the same [title], [start_time], [end_time],
    [repetitions], [bank_holiday_adjustment] and [permanent_offset], and
    with [done] and [triggered] false and both counters 0, whatever these
    four were in the reminder serialized. *)
Theorem reminder_roundtrip w self me :
  reminder_objs w !! self = Some me →
  datetime_ok (start_time me) = true → 1000 ≤ year (dt_date (start_time me)) →
  whole_minute (start_time me) = true →
  datetime_ok (end_time me) = true → 1000 ≤ year (dt_date (end_time me)) →
  whole_minute (end_time me) = true →
  ∃ r,
    reminder_objs w !! r = None ∧
    (Reminder.serialize self ≫= Reminder.deserialize) w =
      (Return r,
       with_reminder_objs
         <[r := MkReminder (title me) (start_time me) (end_time me)
                  false false 0 0
                  (repetitions me) (bank_holiday_adjustment me)
                  (permanent_offset me)]> w).
Proof.
  intros Hme Hs1 Hsy Hs2 He1 Hey He2.
  exists (fresh (dom (reminder_objs w))). split.
  { apply not_elem_of_dom, is_fresh. }
  rewrite bind_run. unfold Reminder.serialize.
  rewrite bind_run, (get_reminder_run _ _ me) by done.
  cbn [mret M_ret]. unfold Reminder.deserialize.
  cbn [data_title data_start_time data_end_time data_repetitions
       data_bank_holiday_adjustment data_permanent_offset].
  rewrite !strptime_strftime_whole_minute by done.
  rewrite bind_run. cbn [lift]. rewrite bind_run. cbn [lift].
  unfold new_reminder, Reminder.init. by rewrite or_empty_list.
Qed.

Lemma reminder_roundtrip_witness :
  let w := sample_world {[ 2%positive := notified exercise ]} [2%positive] (at_ 2023 6 8 8 30) in
  reminder_objs w !! 2%positive = Some (notified exercise) ∧
  datetime_ok (start_time (notified exercise)) = true ∧
  1000 ≤ year (dt_date (start_time (notified exercise))) ∧
  whole_minute (start_time (notified exercise)) = true ∧
  datetime_ok (end_time (notified exercise)) = true ∧
  1000 ≤ year (dt_date (end_time (notified exercise))) ∧
  whole_minute (end_time (notified exercise)) = true ∧
  ∃ r,
    reminder_objs w !! r = None ∧
    (Reminder.serialize 2%positive ≫= Reminder.deserialize) w =
      (Return r, with_reminder_objs <[r := exercise]> w).
Proof.
  intros w.
  assert (1000 ≤ 2023) as Hy by lia.
  repeat (split; [first [reflexivity | exact Hy]|]).
  exact (reminder_roundtrip w 2%positive (notified exercise)
           eq_refl eq_refl Hy eq_refl eq_refl Hy eq_refl).
Defined.

(** ** The clock *)

Lemma date_today_run w :
  date_today w = (Return (dt_date (clock w (ticks w))), with_ticks S w).
Proof. reflexivity. Qed.

Lemma fmap_run {A B} (f : A → B) (m : M A) w :
  (f <$> m) w =
    match m w with
    | (Return a, w') => (Return (f a), w')
    | (Raise e, w') => (Raise e, w')
    end.
Proof. unfold fmap, M_fmap. rewrite bind_run. by destruct (m w) as [[]]. Qed.

(** ** [save_completion_data] *)

Lemma completion_record_reset today o :
  completion_record today (set_triggered false o) = completion_record today o.
Proof. reflexivity. Qed.

Lemma recorded_as_self today w ls os :
  Forall2 (λ l o, reminder_objs w !! l = Some o) ls os →
  Forall2 (recorded_as today w) ls os.
Proof. intros H. eapply Forall2_impl; [exact H|]. intros l o Ho. by exists o. Qed.

(** The loop, by induction on the list it walks: a reminder listed twice
    is recorded twice, the second time after its reset, with the same
    counts. *)
Lemma save_loop_run today ls : ∀ os acc w,
  Forall2 (recorded_as today w) ls os →
  for_each ls (Calendar.completion_step today) acc w =
    (Return (acc ++ (completion_record today <$> os)),
     with_reminder_objs
       (λ h, foldl (λ h l, alter (set_triggered false) l h) h ls) w).
Proof.
  induction ls as [|l ls IH]; intros os acc w Hall.
  - apply Forall2_nil_inv_l in Hall as ->. cbn. rewrite app_nil_r. by destruct w.
  - apply Forall2_cons_inv_l in Hall as (o & os' & (o' & Ho & Hrec) & Hall & ->).
    cbn [for_each]. rewrite bind_run. unfold Calendar.completion_step at 1.
    rewrite bind_run, (get_reminder_run _ _ o') by done.
    rewrite bind_run, (update_reminder_run _ _ o') by done.
    cbn [mret M_ret]. rewrite (IH os').
    + rewrite Hrec, <- app_assoc. cbn [foldl]. f_equal.
      unfold with_reminder_objs. cbn. f_equal. f_equal.
      apply map_eq. intros i. rewrite lookup_alter, lookup_insert.
      repeat case_decide; simplify_eq; by rewrite ?Ho.
    + eapply Forall2_impl; [exact Hall|]. intros l' o2 (o2' & Ho2 & Hrec2).
      unfold recorded_as. cbn. destruct (decide (l = l')) as [<-|Hne].
      * rewrite lookup_insert_eq. rewrite Ho in Ho2. injection Ho2 as <-.
        exists (set_triggered false o'). by rewrite completion_record_reset.
      * rewrite lookup_insert_ne by done. eauto.
Qed.

Lemma lookup_reset_fold ls : ∀ (h : gmap loc reminder) r,
  foldl (λ h l, alter (set_triggered false) l h) h ls !! r =
  (λ o, if bool_decide (r ∈ ls) then set_triggered false o else o) <$> h !! r.
Proof.
  induction ls as [|l ls IH]; intros h r.
  - cbn. by destruct (h !! r).
  - cbn [foldl]. rewrite IH, lookup_alter.
    destruct (decide (l = r)) as [->|Hne].
    + destruct (h !! r) as [o|]; cbn; [|done].
      rewrite (bool_decide_eq_true_2 (r ∈ r :: ls)) by apply list_elem_of_here.
      f_equal. by case_bool_decide.
    + destruct (h !! r) as [o|]; cbn; [|done]. f_equal.
      rewrite (bool_decide_ext (r ∈ l :: ls) (r ∈ ls)); [done|].
      rewrite elem_of_cons. split; [by intros [->|]|by right].
Qed.

Lemma reset_fold_closed ls (h : gmap loc reminder) :
  foldl (λ h l, alter (set_triggered false) l h) h ls = reset_triggered ls h.
Proof.
  apply map_eq. intros r. unfold reset_triggered.
  rewrite lookup_reset_fold, map_lookup_imap. by destruct (h !! r).
Qed.

(** What [reset_triggered] holds at each reference. *)
Lemma lookup_reset_triggered ls (h : gmap loc reminder) r :
  reset_triggered ls h !! r =
    if bool_decide (r ∈ ls) then set_triggered false <$> h !! r else h !! r.
Proof.
  unfold reset_triggered. rewrite map_lookup_imap.
  destruct (h !! r); cbn; by case_bool_decide.
Qed.

(** C7.  [save_completion_data] sets [triggered] to false on every
    reminder of the calendar, leaves every other attribute and object as it
    was, and writes to the file named after today's date one record
    (title, today, [trigger_count], [done_count]) per reminder, in the
    order of [reminders]. *)
Theorem save_completion_data_spec w self c os :
  calendar_objs w !! self = Some c →
  Forall2 (λ r o, reminder_objs w !! r = Some o) (reminders c) os →
  let today := strftime_Ymd (dt_date (clock w (ticks w))) in
  Calendar.save_completion_data self w =
    (Return (),
     {| reminder_objs :=
          map_imap
            (λ r o,
               Some (if bool_decide (r ∈ reminders c)
                     then MkReminder (title o) (start_time o) (end_time o)
                            (done o) false (trigger_count o) (done_count o)
                            (repetitions o) (bank_holiday_adjustment o)
                            (permanent_offset o)
                     else o))
            (reminder_objs w);
        calendar_objs := calendar_objs w;
        files :=
          <["completion_data_" +:+ today +:+ ".json" :=
              Document
                (JArray ((λ o, JObject [
                                 ("title", JString (title o));
                                 ("date", JString today);
                                 ("trigger_count", JInt (trigger_count o));
                                 ("done_count", JInt (done_count o))
                               ]) <$> os))]> (files w);
        stdout := stdout w ++ ["Completion data saved."];
        clock := clock w;
        ticks := S (ticks w) |}).
Proof.
  intros Hc Hos today. unfold Calendar.save_completion_data.
  rewrite bind_run, fmap_run, date_today_run.
  rewrite bind_run, (get_calendar_run _ _ c) by done.
  rewrite bind_run.
  rewrite (save_loop_run _ _ os) by (apply recorded_as_self; exact Hos).
  rewrite bind_run. cbn [json_dump_file print].
  unfold with_stdout, with_files, with_reminder_objs, with_ticks. cbn.
  by rewrite reset_fold_closed.
Qed.

Lemma save_completion_data_spec_witness :
  let w := sample_world {[ 2%positive := notified meeting; 3%positive := exercise ]}
             [2%positive; 3%positive] (at_ 2023 6 9 0 0) in
  calendar_objs w !! 1%positive = Some (MkCalendar [2%positive; 3%positive] []) ∧
  Forall2 (λ r o, reminder_objs w !! r = Some o)
    [2%positive; 3%positive] [notified meeting; exercise] ∧
  triggered (notified meeting) = true ∧
  ∃ w',
    Calendar.save_completion_data 1%positive w = (Return (), w') ∧
    reminder_objs w' !! 2%positive =
      Some (MkReminder "Meeting" (at_ 2023 6 7 14 0) (at_ 2023 6 7 15 0)
              false false 1 0 [] false false) ∧
    reminder_objs w' !! 3%positive =
      Some (MkReminder "Exercise" (at_ 2023 6 8 8 0) (at_ 2023 6 8 9 0)
              false false 0 0 ["Monday"; "Wednesday"; "Friday"] false false) ∧
    calendar_objs w' = calendar_objs w ∧
    files w' =
      {[ "completion_data_2023-06-09.json" :=
           Document
             (JArray [
                JObject [("title", JString "Meeting"); ("date", JString "2023-06-09");
                         ("trigger_count", JInt 1); ("done_count", JInt 0)];
                JObject [("title", JString "Exercise"); ("date", JString "2023-06-09");
                         ("trigger_count", JInt 0); ("done_count", JInt 0)]
              ]) ]} ∧
    stdout w' = ["Completion data saved."].
Proof.
  intros w.
  assert (Forall2 (λ r o, reminder_objs w !! r = Some o)
            [2%positive; 3%positive] [notified meeting; exercise]) as Hos
    by (repeat constructor).
  split; [reflexivity|]. split; [exact Hos|]. split; [reflexivity|].
  eexists. split; [exact (save_completion_data_spec w 1%positive _ _ eq_refl Hos)|].
  by repeat split.
Defined.

(** ** [mark_reminder_as_done] *)

Lemma mark_reminder_as_done_run w self c r me :
  calendar_objs w !! self = Some c →
  reminder_objs w !! r = Some me →
  Calendar.mark_reminder_as_done self r w =
    (Return (),
     with_stdout (λ out, out ++ ["Reminder marked as done."])
       (with_calendar_objs
          <[self := MkCalendar (reminders c)
                      (completed_tasks c ++
                         [MkCompleted (title me)
                            (strftime_Ymd (dt_date (clock w (ticks w))))])]>
          (with_ticks S (with_reminder_objs <[r := set_done true me]> w)))).
Proof.
  intros Hc Hme. unfold Calendar.mark_reminder_as_done, Reminder.mark_as_done.
  rewrite bind_run, (update_reminder_run _ _ me) by done.
  rewrite bind_run. erewrite get_reminder_run by (cbn; apply lookup_insert_eq).
  rewrite bind_run, date_today_run.
  rewrite bind_run. by erewrite update_calendar_run by (cbn; done).
Qed.

(** C6.  [mark_reminder_as_done(r)] sets [r.done], appends to
    [completed_tasks] the one entry made of the title of [r] and today's
    date, and prints its message; no other attribute of the reminder or of
    the calendar changes, and no other object. *)
Theorem mark_reminder_as_done_spec w self c r me :
  calendar_objs w !! self = Some c →
  reminder_objs w !! r = Some me →
  Calendar.mark_reminder_as_done self r w =
    (Return (),
     with_stdout (λ out, out ++ ["Reminder marked as done."])
       (with_calendar_objs
          <[self := MkCalendar (reminders c)
                      (completed_tasks c ++
                         [MkCompleted (title me)
                            (strftime_Ymd (dt_date (clock w (ticks w))))])]>
          (with_ticks S
             (with_reminder_objs
                <[r := MkReminder (title me) (start_time me) (end_time me)
                         true (triggered me) (trigger_count me) (done_count me)
                         (repetitions me) (bank_holiday_adjustment me)
                         (permanent_offset me)]> w)))).
Proof. apply mark_reminder_as_done_run. Qed.

Lemma mark_reminder_as_done_spec_witness :
  let w := sample_world {[ 2%positive := meeting ]} [2%positive] (at_ 2023 6 7 14 30) in
  calendar_objs w !! 1%positive = Some (MkCalendar [2%positive] []) ∧
  reminder_objs w !! 2%positive = Some meeting ∧
  Calendar.mark_reminder_as_done 1%positive 2%positive w =
    (Return (),
     with_stdout (λ out, out ++ ["Reminder marked as done."])
       (with_calendar_objs
          <[1%positive := MkCalendar [2%positive] [MkCompleted "Meeting" "2023-06-07"]]>
          (with_ticks S
             (with_reminder_objs <[2%positive := set_done true meeting]> w)))).
Proof.
  intros w. split; [reflexivity|]. split; [reflexivity|].
  exact (mark_reminder_as_done_spec w 1%positive _ 2%positive meeting eq_refl eq_refl).
Defined.

(** C10.  [mark_reminder_as_done] does not look its argument up in
    [reminders]: for every reminder, listed or not, the call returns,
    [done] is true afterwards, one entry is appended to [completed_tasks],
    and the list [reminders] is the same. *)
Theorem mark_reminder_as_done_unlisted w self c r me :
  calendar_objs w !! self = Some c →
  reminder_objs w !! r = Some me →
  ∃ w' c' me',
    Calendar.mark_reminder_as_done self r w = (Return (), w') ∧
    reminder_objs w' !! r = Some me' ∧ done me' = true ∧
    calendar_objs w' !! self = Some c' ∧
    completed_tasks c' =
      completed_tasks c ++
        [MkCompleted (title me) (strftime_Ymd (dt_date (clock w (ticks w))))] ∧
    reminders c' = reminders c.
Proof.
  intros Hc Hme. eexists _, _, _.
  split; [by apply mark_reminder_as_done_run|].
  split; [cbn; apply lookup_insert_eq|]. split; [done|].
  split; [cbn; apply lookup_insert_eq|]. done.
Qed.

Lemma mark_reminder_as_done_unlisted_witness :
  let w := sample_world {[ 2%positive := meeting; 3%positive := exercise ]}
             [2%positive] (at_ 2023 6 7 14 30) in
  (3%positive ∉ [2%positive]) ∧
  calendar_objs w !! 1%positive = Some (MkCalendar [2%positive] []) ∧
  reminder_objs w !! 3%positive = Some exercise ∧
  ∃ w' c' me',
    Calendar.mark_reminder_as_done 1%positive 3%positive w = (Return (), w') ∧
    reminder_objs w' !! 3%positive = Some me' ∧ done me' = true ∧
    calendar_objs w' !! 1%positive = Some c' ∧
    completed_tasks c' = [] ++ [MkCompleted "Exercise" "2023-06-07"] ∧
    reminders c' = [2%positive].
Proof.
  intros w. split; [intros Hin%list_elem_of_singleton; discriminate Hin|].
  split; [reflexivity|]. split; [reflexivity|].
  exact (mark_reminder_as_done_unlisted w 1%positive _ 3%positive exercise eq_refl eq_refl).
Defined.

(** ** [remove_reminder] *)

Lemma list_remove_first x l :
  x ∈ l →
  ∃ l1 l2, l = l1 ++ x :: l2 ∧ (x ∉ l1) ∧ list_remove x l = Some (l1 ++ l2).
Proof.
  induction l as [|y l IH]; intros Hin; [by apply elem_of_nil in Hin|].
  cbn [list_remove]. destruct (decide (y = x)) as [->|Hne].
  - exists [], l. split; [done|]. split; [apply not_elem_of_nil|done].
  - apply elem_of_cons in Hin as [->|Hin]; [done|].
    destruct (IH Hin) as (l1 & l2 & -> & Hl1 & ->).
    exists (y :: l1), l2. split; [done|]. split; [|done].
    apply not_elem_of_cons. split; [congruence|done].
Qed.

Lemma list_remove_absent x l : x ∉ l → list_remove x l = None.
Proof.
  induction l as [|y l IH]; [done|]. intros [Hne Hl]%not_elem_of_cons.
  cbn [list_remove]. rewrite decide_False by congruence. by rewrite IH.
Qed.

(** C8, as amended.  [remove_reminder(r)] removes the first element of
    [reminders] that is the object [r] itself and changes nothing else;
    when [r] is not in the list it raises [ValueError] and leaves the
    list, and everything else, as it was. *)
Theorem remove_reminder_spec w self c r :
  calendar_objs w !! self = Some c →
  (r ∈ reminders c →
     ∃ l1 l2, reminders c = l1 ++ r :: l2 ∧ (r ∉ l1) ∧
       Calendar.remove_reminder self r w =
         (Return (),
          with_calendar_objs <[self := MkCalendar (l1 ++ l2) (completed_tasks c)]> w)) ∧
  (r ∉ reminders c →
     Calendar.remove_reminder self r w = (Raise ValueError, w)).
Proof.
  intros Hc. unfold Calendar.remove_reminder.
  rewrite bind_run, (get_calendar_run _ _ c) by done. split.
  - intros (l1 & l2 & Hl & Hl1 & Hrm)%list_remove_first.
    exists l1, l2. split; [done|]. split; [done|].
    by rewrite Hrm, (update_calendar_run _ _ c).
  - intros Hrm%list_remove_absent. by rewrite Hrm.
Qed.

Lemma remove_reminder_spec_witness :
  let w := sample_world {[ 2%positive := meeting; 3%positive := exercise ]}
             [2%positive; 3%positive; 2%positive] (at_ 2023 6 7 14 30) in
  calendar_objs w !! 1%positive = Some (MkCalendar [2%positive; 3%positive; 2%positive] []) ∧
  Calendar.remove_reminder 1%positive 3%positive w =
    (Return (),
     with_calendar_objs <[1%positive := MkCalendar [2%positive; 2%positive] []]> w) ∧
  Calendar.remove_reminder 1%positive 4%positive w = (Raise ValueError, w).
Proof.
  intros w. split; [reflexivity|].
  pose proof (remove_reminder_spec w 1%positive _ 4%positive eq_refl) as [_ Habsent].
  split; [reflexivity|]. apply Habsent.
  cbn. intros Hin. repeat (apply elem_of_cons in Hin as [Hin|Hin]; [discriminate Hin|]).
  by apply elem_of_nil in Hin.
Defined.

(** C8, as stated, fails: the calendar lists object 2, object 3 is another
    reminder with the same attributes, and [remove_reminder] of object 3
    raises [ValueError] although an element structurally equal to it is
    present. *)
Lemma remove_reminder_structural_twin :
  let w := sample_world {[ 2%positive := meeting; 3%positive := meeting ]}
             [2%positive] (at_ 2023 6 7 14 30) in
  reminders <$> calendar_objs w !! 1%positive = Some [2%positive] ∧
  reminder_objs w !! 2%positive = reminder_objs w !! 3%positive ∧
  Calendar.remove_reminder 1%positive 3%positive w = (Raise ValueError, w).
Proof. intros w. repeat split. Qed.

(** ** The two [def]s of [add_reminder] *)

Lemma Calendar_add_reminder_binding :
  Calendar.namespace !! "add_reminder" = Some (Def "add_reminder" ["self"] 119).
Proof. vm_compute. reflexivity. Qed.

Lemma Calendar_deserialize_unbound : Calendar.namespace !! "deserialize" = None.
Proof. vm_compute. reflexivity. Qed.

(** The [def] of line 64, were it the one bound, appends its argument. *)
Lemma add_reminder_def_appends w self c reminder :
  calendar_objs w !! self = Some c →
  Calendar.add_reminder self reminder w =
    (Return (),
     with_calendar_objs
       <[self := MkCalendar (reminders c ++ [reminder]) (completed_tasks c)]> w).
Proof. intros Hc. unfold Calendar.add_reminder. by rewrite (update_calendar_run _ _ c). Qed.

(** C2: the program departs from it.  [add_reminder] is bound to the [def]
    of line 119, which takes [self] alone, so the call with a reminder
    raises [TypeError] before any body runs and appends nothing. *)
Theorem add_reminder_call_raises {Res} (run_body : pydef → list loc → M Res) reminder w :
  call run_body Calendar.namespace "add_reminder" [reminder] w = (Raise TypeError, w).
Proof. unfold call. by rewrite Calendar_add_reminder_binding. Qed.

(** ** Saving and loading *)

(** C1: the program departs from it.  [load_reminders_from_file] calls
    [cls.deserialize], which [Calendar] does not define: loading the file
    that [save_reminders_to_file] wrote raises [AttributeError] and returns
    no calendar. *)
Theorem load_after_save_raises run_body self filename w w' :
  Calendar.save_reminders_to_file self filename w = (Return (), w') →
  Calendar.load_reminders_from_file run_body filename w' = (Raise AttributeError, w').
Proof.
  unfold Calendar.save_reminders_to_file. rewrite bind_run.
  destruct (Calendar.serialize self w) as [[data|e] w1]; [|done].
  cbn [json_dump_file]. intros [= <-].
  unfold Calendar.load_reminders_from_file. rewrite bind_run.
  unfold json_load_file. cbn [files with_files]. rewrite lookup_insert_eq.
  rewrite bind_run. unfold call. by rewrite Calendar_deserialize_unbound.
Qed.

Lemma load_after_save_raises_witness :
  let w := sample_world {[ 2%positive := meeting ]} [2%positive] (at_ 2023 6 7 14 30) in
  let w' := with_files
              <["reminders.json" :=
                  Document (JObject [
                    ("reminders", JArray [
                       JObject [
                         ("title", JString "Meeting");
                         ("start_time", JString "2023-06-07 14:00");
                         ("end_time", JString "2023-06-07 15:00");
                         ("repetitions", JArray []);
                         ("bank_holiday_adjustment", JBool false);
                         ("permanent_offset", JBool false)]]);
                    ("completed_tasks", JArray [])])]> w in
  Calendar.save_reminders_to_file 1%positive "reminders.json" w = (Return (), w') ∧
  Calendar.load_reminders_from_file (λ _ _, mret 1%positive) "reminders.json" w'
    = (Raise AttributeError, w').
Proof.
  intros w w'.
  assert (Calendar.save_reminders_to_file 1%positive "reminders.json" w = (Return (), w'))
    as Hsave by reflexivity.
  split; [exact Hsave|].
  exact (load_after_save_raises _ 1%positive "reminders.json" w w' Hsave).
Defined.

(** * Further properties *)

(** ** What [deserialize] accepts and what it builds *)

Lemma p_upto2_bounds lo hi s n s' : p_upto2 lo hi s = Some (n, s') → lo ≤ n ≤ hi.
Proof.
  unfold p_upto2. destruct (p_digit s) as [[a s1]|]; [|done]. cbn.
  destruct (p_digit s1) as [[b s2]|]; cbn;
    repeat match goal with
    | |- context [?x <=? ?y] => destruct (Z.leb_spec x y); cbn; [|try done]
    end;
    intros [= <- <-]; lia.
Qed.

Lemma strptime_raises s e : strptime_Ymd_HM s = Raise e → e = ValueError.
Proof.
  unfold strptime_Ymd_HM. destruct (_ ≫= _) as [dt|]; [|congruence].
  destruct (date_ok _); congruence.
Qed.

Lemma strptime_returns s dt :
  strptime_Ymd_HM s = Return dt → datetime_ok dt = true ∧ whole_minute dt = true.
Proof.
  unfold strptime_Ymd_HM.
  destruct (p_year s) as [[y s1]|]; cbn [mbind option_bind]; [|done].
  destruct (p_char "-" s1) as [[[] s2]|]; cbn [mbind option_bind]; [|done].
  destruct (p_upto2 1 12 s2) as [[m s3]|]; cbn [mbind option_bind]; [|done].
  destruct (p_char "-" s3) as [[[] s4]|]; cbn [mbind option_bind]; [|done].
  destruct (p_day s4) as [[d s5]|]; cbn [mbind option_bind]; [|done].
  destruct (p_spaces s5) as [[[] s6]|]; cbn [mbind option_bind]; [|done].
  destruct (p_upto2 0 23 s6) as [[H s7]|] eqn:HH; cbn [mbind option_bind]; [|done].
  destruct (p_char ":" s7) as [[[] s8]|]; cbn [mbind option_bind]; [|done].
  destruct (p_upto2 0 59 s8) as [[Mi s9]|] eqn:HM; cbn [mbind option_bind]; [|done].
  destruct s9; [|done]. cbn [dt_date].
  destruct (date_ok _) eqn:Hd; [|done]. intros [= <-].
  apply p_upto2_bounds in HH, HM. split; [|done].
  unfold datetime_ok. cbn [dt_date dt_time]. rewrite Hd. unfold time_ok.
  cbn [hour minute second microsecond andb].
  rewrite !andb_true_iff, !Z.leb_le, !Z.ltb_lt. lia.
Qed.

Lemma serialize_run w self me :
  reminder_objs w !! self = Some me →
  Reminder.serialize self w = (Return (data_of me), w).
Proof.
  intros Hme. unfold Reminder.serialize.
  by rewrite bind_run, (get_reminder_run _ _ me).
Qed.

Lemma deserialize_run data w s e :
  strptime_Ymd_HM (data_start_time data) = Return s →
  strptime_Ymd_HM (data_end_time data) = Return e →
  Reminder.deserialize data w =
    (Return (fresh (dom (reminder_objs w))),
     with_reminder_objs
       <[fresh (dom (reminder_objs w)) :=
           Reminder.init (data_title data) s e (Some (data_repetitions data))
             (data_bank_holiday_adjustment data) (data_permanent_offset data)]> w).
Proof.
  intros Hs He. unfold Reminder.deserialize.
  rewrite bind_run, Hs. cbn [lift]. rewrite bind_run, He. by cbn [lift].
Qed.

Lemma roundtrip_run w self me :
  reminder_objs w !! self = Some me →
  datetime_ok (start_time me) = true → 1000 ≤ year (dt_date (start_time me)) →
  datetime_ok (end_time me) = true → 1000 ≤ year (dt_date (end_time me)) →
  (Reminder.serialize self ≫= Reminder.deserialize) w =
    (Return (fresh (dom (reminder_objs w))),
     with_reminder_objs
       <[fresh (dom (reminder_objs w)) :=
           MkReminder (title me)
             (to_minute (start_time me)) (to_minute (end_time me))
             false false 0 0
             (repetitions me) (bank_holiday_adjustment me)
             (permanent_offset me)]> w).
Proof.
  intros Hme Hs Hsy He Hey. rewrite bind_run, (serialize_run w self me Hme).
  rewrite (deserialize_run _ w (to_minute (start_time me)) (to_minute (end_time me)))
    by (by apply strptime_strftime).
  unfold Reminder.init. cbn [data_of data_title data_repetitions
    data_bank_holiday_adjustment data_permanent_offset].
  by rewrite or_empty_list.
Qed.

(** X1.  Serializing a reminder and deserializing the result drops the
    seconds and microseconds of [start_time] and [end_time] and keeps
    their date, hour and minute, whatever the times of day are, for times
    of a year from 1000 on; the other attributes are as in the claim on
    the round trip. *)
Theorem reminder_roundtrip_truncates w self me :
  reminder_objs w !! self = Some me →
  datetime_ok (start_time me) = true → 1000 ≤ year (dt_date (start_time me)) →
  datetime_ok (end_time me) = true → 1000 ≤ year (dt_date (end_time me)) →
  ∃ r,
    reminder_objs w !! r = None ∧
    (Reminder.serialize self ≫= Reminder.deserialize) w =
      (Return r,
       with_reminder_objs
         <[r := MkReminder (title me)
                  (MkDateTime (dt_date (start_time me))
                     (MkTime (hour (dt_time (start_time me)))
                        (minute (dt_time (start_time me))) 0 0))
                  (MkDateTime (dt_date (end_time me))
                     (MkTime (hour (dt_time (end_time me)))
                        (minute (dt_time (end_time me))) 0 0))
                  false false 0 0
                  (repetitions me) (bank_holiday_adjustment me)
                  (permanent_offset me)]> w).
Proof.
  intros Hme Hs Hsy He Hey. exists (fresh (dom (reminder_objs w))).
  split; [apply not_elem_of_dom, is_fresh|]. by apply roundtrip_run.
Qed.

Lemma reminder_roundtrip_truncates_witness :
  let w := sample_world {[ 2%positive := standup ]} [2%positive] (at_ 2023 6 7 9 20) in
  reminder_objs w !! 2%positive = Some standup ∧
  datetime_ok (start_time standup) = true ∧
  1000 ≤ year (dt_date (start_time standup)) ∧
  datetime_ok (end_time standup) = true ∧
  1000 ≤ year (dt_date (end_time standup)) ∧
  ∃ r,
    reminder_objs w !! r = None ∧
    (Reminder.serialize 2%positive ≫= Reminder.deserialize) w =
      (Return r,
       with_reminder_objs
         <[r := MkReminder "Stand-up" (at_ 2023 6 7 9 15) (at_ 2023 6 7 9 30)
                  false false 0 0 ["Monday"; "Friday"] true false]> w).
Proof.
  intros w.
  assert (1000 ≤ 2023) as Hy by lia.
  repeat (split; [first [reflexivity | exact Hy]|]).
  exact (reminder_roundtrip_truncates w 2%positive standup
           eq_refl eq_refl Hy eq_refl Hy).
Defined.

(** X2.  When [deserialize] returns, the reminder it built is a new
    object whose [start_time] and [end_time] are the values parsed from the
    mapping, both valid datetimes on a whole minute, and whose [done],
    [triggered] and counters have their initial values; nothing else in the
    world has changed. *)
Theorem deserialize_returns data w r w' :
  Reminder.deserialize data w = (Return r, w') →
  ∃ o,
    reminder_objs w !! r = None ∧
    w' = with_reminder_objs <[r := o]> w ∧
    title o = data_title data ∧
    strptime_Ymd_HM (data_start_time data) = Return (start_time o) ∧
    strptime_Ymd_HM (data_end_time data) = Return (end_time o) ∧
    datetime_ok (start_time o) = true ∧ whole_minute (start_time o) = true ∧
    datetime_ok (end_time o) = true ∧ whole_minute (end_time o) = true ∧
    done o = false ∧ triggered o = false ∧
    trigger_count o = 0 ∧ done_count o = 0.
Proof.
  destruct (strptime_Ymd_HM (data_start_time data)) as [s|e1] eqn:Hs.
  2: { unfold Reminder.deserialize. rewrite bind_run, Hs. by cbn [lift]. }
  destruct (strptime_Ymd_HM (data_end_time data)) as [e|e2] eqn:He.
  2: { unfold Reminder.deserialize. rewrite bind_run, Hs. cbn [lift].
       rewrite bind_run, He. by cbn [lift]. }
  rewrite (deserialize_run data w s e Hs He). intros [= <- <-].
  destruct (strptime_returns _ _ Hs) as [? ?].
  destruct (strptime_returns _ _ He) as [? ?].
  eexists. split; [apply not_elem_of_dom, is_fresh|].
  split; [reflexivity|]. cbn. by repeat split.
Qed.

Lemma deserialize_returns_witness :
  let w := sample_world {[ 2%positive := notified meeting ]} [2%positive] (at_ 2023 6 7 14 30) in
  let data := MkReminderData "Meeting" "2023-6-7 14:00" "2023-06-07  15:0" [] false false in
  let r := fresh (dom (reminder_objs w)) in
  let w' := with_reminder_objs <[r := meeting]> w in
  Reminder.deserialize data w = (Return r, w') ∧
  ∃ o,
    reminder_objs w !! r = None ∧
    w' = with_reminder_objs <[r := o]> w ∧
    title o = "Meeting" ∧
    strptime_Ymd_HM "2023-6-7 14:00" = Return (start_time o) ∧
    strptime_Ymd_HM "2023-06-07  15:0" = Return (end_time o) ∧
    datetime_ok (start_time o) = true ∧ whole_minute (start_time o) = true ∧
    datetime_ok (end_time o) = true ∧ whole_minute (end_time o) = true ∧
    done o = false ∧ triggered o = false ∧
    trigger_count o = 0 ∧ done_count o = 0.
Proof.
  intros w data r w'.
  assert (Reminder.deserialize data w = (Return r, w')) as Hrun by reflexivity.
  split; [exact Hrun|]. exact (deserialize_returns data w r w' Hrun).
Defined.

(** X3.  For a reminder with valid times of which one is of a year before
    1000, [deserialize] of [serialize] raises [ValueError]: [serialize]
    writes that year on fewer than four digits, which [deserialize] does
    not parse.  No reminder is created and nothing changes, also when
    [start_time] parses and [end_time] does not. *)
Theorem roundtrip_before_year_1000 w self me :
  reminder_objs w !! self = Some me →
  datetime_ok (start_time me) = true → datetime_ok (end_time me) = true →
  year (dt_date (start_time me)) < 1000 ∨ year (dt_date (end_time me)) < 1000 →
  (Reminder.serialize self ≫= Reminder.deserialize) w = (Raise ValueError, w).
Proof.
  intros Hme Hs He Hy. rewrite bind_run, (serialize_run w self me Hme).
  unfold Reminder.deserialize. cbn [data_of data_start_time data_end_time].
  rewrite bind_run.
  destruct (Z.lt_ge_cases (year (dt_date (start_time me))) 1000) as [Hsy|Hsy].
  { by rewrite strptime_strftime_short_year. }
  destruct Hy as [Hy|Hy]; [lia|].
  rewrite strptime_strftime by done. cbn [lift].
  by rewrite bind_run, strptime_strftime_short_year.
Qed.

Lemma roundtrip_before_year_1000_witness :
  let charter :=
    Reminder.init "Charter" (at_ 1215 6 15 9 0) (at_ 215 6 15 10 0) None false false in
  let w := sample_world {[ 2%positive := charter ]} [2%positive] (at_ 2023 6 7 14 30) in
  reminder_objs w !! 2%positive = Some charter ∧
  datetime_ok (start_time charter) = true ∧ datetime_ok (end_time charter) = true ∧
  (year (dt_date (start_time charter)) < 1000 ∨ year (dt_date (end_time charter)) < 1000) ∧
  Reminder.serialize 2%positive w =
    (Return (MkReminderData "Charter" "1215-06-15 09:00" "215-06-15 10:00" [] false false), w) ∧
  (Reminder.serialize 2%positive ≫= Reminder.deserialize) w = (Raise ValueError, w).
Proof.
  intros charter w.
  assert (year (dt_date (start_time charter)) < 1000 ∨
          year (dt_date (end_time charter)) < 1000) as Hy by (right; cbn; lia).
  repeat (split; [first [reflexivity | exact Hy]|]).
  exact (roundtrip_before_year_1000 w 2%positive charter eq_refl eq_refl eq_refl Hy).
Defined.

(** X4.  For a reminder with times of a year from 1000 on, serializing
    the reminder that [deserialize] built from the serialized reminder gives
    the same mapping again: what is lost is lost in the first
    [serialize]. *)
Theorem serialize_again_same w self me :
  reminder_objs w !! self = Some me →
  datetime_ok (start_time me) = true → 1000 ≤ year (dt_date (start_time me)) →
  datetime_ok (end_time me) = true → 1000 ≤ year (dt_date (end_time me)) →
  ∃ data w',
    Reminder.serialize self w = (Return data, w) ∧
    ((Reminder.serialize self ≫= Reminder.deserialize) ≫= Reminder.serialize) w
      = (Return data, w').
Proof.
  intros Hme Hs Hsy He Hey. exists (data_of me). eexists.
  split; [by apply serialize_run|].
  rewrite bind_run, (roundtrip_run w self me Hme Hs Hsy He Hey).
  by erewrite serialize_run by (cbn; apply lookup_insert_eq).
Qed.

Lemma serialize_again_same_witness :
  let w := sample_world {[ 2%positive := standup ]} [2%positive] (at_ 2023 6 7 9 20) in
  reminder_objs w !! 2%positive = Some standup ∧
  datetime_ok (start_time standup) = true ∧
  1000 ≤ year (dt_date (start_time standup)) ∧
  datetime_ok (end_time standup) = true ∧
  1000 ≤ year (dt_date (end_time standup)) ∧
  ∃ data w',
    Reminder.serialize 2%positive w = (Return data, w) ∧
    ((Reminder.serialize 2%positive ≫= Reminder.deserialize) ≫= Reminder.serialize) w
      = (Return data, w').
Proof.
  intros w.
  assert (1000 ≤ 2023) as Hy by lia.
  repeat (split; [first [reflexivity | exact Hy]|]).
  exact (serialize_again_same w 2%positive standup eq_refl eq_refl Hy eq_refl Hy).
Defined.

(** ** [Calendar.serialize], saving and loading *)

Lemma serialize_loop_run ls : ∀ os acc w,
  Forall2 (λ l o, reminder_objs w !! l = Some o) ls os →
  for_each ls (λ reminder acc, d ← Reminder.serialize reminder; mret (acc ++ [d])) acc w
    = (Return (acc ++ (data_of <$> os)), w).
Proof.
  induction ls as [|l ls IH]; intros os acc w Hall.
  - apply Forall2_nil_inv_l in Hall as ->. cbn. by rewrite app_nil_r.
  - apply Forall2_cons_inv_l in Hall as (o & os' & Ho & Hall & ->).
    cbn [for_each]. rewrite bind_run, bind_run, (serialize_run _ _ o) by done.
    cbn [mret M_ret]. rewrite (IH os') by done.
    by rewrite <- app_assoc.
Qed.

Lemma calendar_serialize_run w self c os :
  calendar_objs w !! self = Some c →
  Forall2 (λ r o, reminder_objs w !! r = Some o) (reminders c) os →
  Calendar.serialize self w =
    (Return (MkCalendarData (data_of <$> os) (completed_tasks c)), w).
Proof.
  intros Hc Hos. unfold Calendar.serialize.
  rewrite bind_run, (get_calendar_run _ _ c) by done.
  by rewrite bind_run, (serialize_loop_run _ os).
Qed.

(** X5.  [Calendar.serialize] returns one serialized reminder per entry
    of [reminders], in order, with [completed_tasks] as it is, and changes
    nothing. *)
Theorem calendar_serialize_spec w self c os :
  calendar_objs w !! self = Some c →
  Forall2 (λ r o, reminder_objs w !! r = Some o) (reminders c) os →
  Calendar.serialize self w =
    (Return
       (MkCalendarData
          ((λ o, MkReminderData (title o)
                   (strftime_Ymd_HM (start_time o)) (strftime_Ymd_HM (end_time o))
                   (repetitions o) (bank_holiday_adjustment o)
                   (permanent_offset o)) <$> os)
          (completed_tasks c)),
     w).
Proof. apply calendar_serialize_run. Qed.

Lemma calendar_serialize_spec_witness :
  let w := sample_world {[ 2%positive := standup; 3%positive := exercise ]}
             [3%positive; 2%positive; 3%positive] (at_ 2023 6 7 9 20) in
  calendar_objs w !! 1%positive
    = Some (MkCalendar [3%positive; 2%positive; 3%positive] []) ∧
  Forall2 (λ r o, reminder_objs w !! r = Some o)
    [3%positive; 2%positive; 3%positive] [exercise; standup; exercise] ∧
  Calendar.serialize 1%positive w =
    (Return (MkCalendarData [data_of exercise; data_of standup; data_of exercise] []), w).
Proof.
  intros w.
  assert (Forall2 (λ r o, reminder_objs w !! r = Some o)
            [3%positive; 2%positive; 3%positive] [exercise; standup; exercise]) as Hos
    by (repeat constructor).
  split; [reflexivity|]. split; [exact Hos|].
  exact (calendar_serialize_spec w 1%positive _ _ eq_refl Hos).
Defined.

(** X6.  [save_reminders_to_file] puts in the named file, in place of
    what it held, the document of the serialized reminders (in order) and
    of [completed_tasks]; no object, no other file and no output
    changes. *)
Theorem save_reminders_to_file_spec w self c os filename :
  calendar_objs w !! self = Some c →
  Forall2 (λ r o, reminder_objs w !! r = Some o) (reminders c) os →
  Calendar.save_reminders_to_file self filename w =
    (Return (),
     with_files
       <[filename :=
           Document (JObject [
             ("reminders",
              JArray ((λ o, JObject [
                         ("title", JString (title o));
                         ("start_time", JString (strftime_Ymd_HM (start_time o)));
                         ("end_time", JString (strftime_Ymd_HM (end_time o)));
                         ("repetitions", JArray (JString <$> repetitions o));
                         ("bank_holiday_adjustment", JBool (bank_holiday_adjustment o));
                         ("permanent_offset", JBool (permanent_offset o))]) <$> os));
             ("completed_tasks",
              JArray ((λ t, JObject [("title", JString (task_title t));
                                     ("date", JString (task_date t))])
                        <$> completed_tasks c))
           ])]> w).
Proof.
  intros Hc Hos. unfold Calendar.save_reminders_to_file.
  rewrite bind_run, (calendar_serialize_run w self c os) by done.
  unfold json_of_calendar_data. cbn [data_reminders data_completed_tasks json_dump_file].
  by rewrite <- list_fmap_compose.
Qed.

Lemma save_reminders_to_file_spec_witness :
  let w := with_files <["reminders.json" := Document (JArray [])]>
             (sample_world {[ 2%positive := standup ]} [2%positive] (at_ 2023 6 7 9 20)) in
  calendar_objs w !! 1%positive = Some (MkCalendar [2%positive] []) ∧
  Forall2 (λ r o, reminder_objs w !! r = Some o) [2%positive] [standup] ∧
  Calendar.save_reminders_to_file 1%positive "reminders.json" w =
    (Return (),
     with_files
       <["reminders.json" :=
           Document (JObject [
             ("reminders", JArray [
                JObject [
                  ("title", JString "Stand-up");
                  ("start_time", JString "2023-06-07 09:15");
                  ("end_time", JString "2023-06-07 09:30");
                  ("repetitions", JArray [JString "Monday"; JString "Friday"]);
                  ("bank_holiday_adjustment", JBool true);
                  ("permanent_offset", JBool false)]]);
             ("completed_tasks", JArray [])])]> w).
Proof.
  intros w.
  assert (Forall2 (λ r o, reminder_objs w !! r = Some o) [2%positive] [standup]) as Hos
    by (repeat constructor).
  split; [reflexivity|]. split; [exact Hos|].
  exact (save_reminders_to_file_spec w 1%positive _ _ "reminders.json" eq_refl Hos).
Defined.

(** X7.  [load_reminders_from_file] never returns a calendar and changes
    nothing: it raises [FileNotFoundError] when the file does not exist,
    [JSONDecodeError] when the file holds no JSON document, and
    [AttributeError] when it holds one, since [Calendar] has no
    [deserialize]. *)
Theorem load_reminders_from_file_raises run_body filename w :
  Calendar.load_reminders_from_file run_body filename w =
    (Raise match files w !! filename with
           | None => FileNotFoundError
           | Some Malformed => JSONDecodeError
           | Some (Document _) => AttributeError
           end,
     w).
Proof.
  unfold Calendar.load_reminders_from_file. rewrite bind_run. unfold json_load_file.
  destruct (files w !! filename) as [[doc|]|]; [|done..].
  rewrite bind_run. unfold call. by rewrite Calendar_deserialize_unbound.
Qed.

(** The three cases of a load, in a world with a file that
    [save_reminders_to_file] could have written and a file of other
    text. *)
Example load_reminders_from_file_cases :
  let w := with_files
             (λ _, {[ "reminders.json" :=
                        Document (JObject [("reminders", JArray []);
                                           ("completed_tasks", JArray [])]);
                      "notes.txt" := Malformed ]})
             (sample_world ∅ [] (at_ 2023 6 7 14 30)) in
  let load := Calendar.load_reminders_from_file (λ _ _, mret 1%positive) in
  load "reminders.json" w = (Raise AttributeError, w) ∧
  load "notes.txt" w = (Raise JSONDecodeError, w) ∧
  load "missing.json" w = (Raise FileNotFoundError, w).
Proof. by repeat split. Qed.

(** ** The files of the daily snapshot *)

Ltac short_year :=
  cbn [zero_padded]; repeat step_parser;
  match goal with
  | |- context [p_digit (String "-" ?s)] =>
      change (p_digit (String "-" s)) with (@None (Z * string))
  end;
  cbn beta iota; do 2 f_equal; digits_value.

Lemma p_upto4_year y s :
  1 ≤ y < 10000 →
  p_upto4 (zero_padded (year_width y) y (String "-" s)) = Some (y, String "-" s).
Proof.
  intros Hy. unfold p_upto4, year_width.
  destruct (Z.ltb_spec y 10); [short_year|].
  destruct (Z.ltb_spec y 100); [short_year|].
  destruct (Z.ltb_spec y 1000); [short_year|].
  cbn [zero_padded]. do 4 step_parser. do 2 f_equal. digits_value.
Qed.

Lemma read_date_strftime d c s :
  date_ok d = true → digit_val c = None →
  read_date (strftime_date d (String c s)) = Some d.
Proof.
  destruct d as [y m d]. intros Hd Hc. unfold date_ok in Hd.
  cbn [year month day] in Hd.
  repeat (apply andb_prop in Hd as [Hd ?]).
  repeat match goal with
  | H : (_ <=? _) = true |- _ => apply Z.leb_le in H
  end.
  assert (d ≤ 31) by eauto using day_at_most_31.
  unfold read_date, strftime_date. cbn [year month day].
  rewrite p_upto4_year by lia. cbn [mbind option_bind].
  rewrite p_char_same. cbn [mbind option_bind].
  rewrite p_upto2_padded by (done || lia). cbn [mbind option_bind].
  rewrite p_char_same. cbn [mbind option_bind].
  by rewrite p_upto2_padded by (done || lia).
Qed.

Lemma zero_padded_app width : ∀ n acc s,
  zero_padded width n acc +:+ s = zero_padded width n (acc +:+ s).
Proof.
  induction width as [|width IH]; intros n acc s; [done|].
  cbn [zero_padded]. by rewrite IH.
Qed.

Lemma strftime_date_app d acc s : strftime_date d acc +:+ s = strftime_date d (acc +:+ s).
Proof.
  unfold strftime_date. rewrite zero_padded_app.
  change (String "-" ?x +:+ s) with (String "-" (x +:+ s)). rewrite zero_padded_app.
  change (String "-" ?x +:+ s) with (String "-" (x +:+ s)). by rewrite zero_padded_app.
Qed.

Lemma snapshot_name_inj d1 d2 :
  date_ok d1 = true → date_ok d2 = true →
  "completion_data_" +:+ strftime_Ymd d1 +:+ ".json"
    = "completion_data_" +:+ strftime_Ymd d2 +:+ ".json" →
  d1 = d2.
Proof.
  intros Hd1 Hd2 Heq. apply (inj (String.app _)) in Heq.
  unfold strftime_Ymd in Heq. rewrite !strftime_date_app in Heq.
  change ("" +:+ ".json") with (String "." "json") in Heq.
  apply (f_equal read_date) in Heq.
  rewrite !read_date_strftime in Heq by done. by injection Heq.
Qed.

(** X8.  The snapshots of two different days go to two different files:
    the file name that [save_completion_data] builds determines the
    date. *)
Theorem snapshot_file_per_day d1 d2 :
  date_ok d1 = true → date_ok d2 = true → d1 ≠ d2 →
  "completion_data_" +:+ strftime_Ymd d1 +:+ ".json"
    ≠ "completion_data_" +:+ strftime_Ymd d2 +:+ ".json".
Proof. intros Hd1 Hd2 Hne Heq. by apply Hne, snapshot_name_inj. Qed.

Lemma snapshot_file_per_day_witness :
  date_ok (MkDate 2023 12 1) = true ∧ date_ok (MkDate 2023 1 21) = true ∧
  MkDate 2023 12 1 ≠ MkDate 2023 1 21 ∧
  "completion_data_2023-12-01.json" ≠ "completion_data_2023-01-21.json".
Proof.
  assert (MkDate 2023 12 1 ≠ MkDate 2023 1 21) as Hne by discriminate.
  split; [reflexivity|]. split; [reflexivity|]. split; [exact Hne|].
  exact (snapshot_file_per_day (MkDate 2023 12 1) (MkDate 2023 1 21) eq_refl eq_refl Hne).
Defined.

(** ** How the operations compose *)

Lemma Forall2_impl_elem {A B} (P Q : A → B → Prop) l k :
  Forall2 P l k → (∀ x y, x ∈ l → P x y → Q x y) → Forall2 Q l k.
Proof.
  induction 1 as [|x y l k Hxy _ IH]; intros Himp; constructor.
  - apply Himp; [left|done].
  - apply IH. intros x' y' Hin. apply Himp. by right.
Qed.

Lemma save_completion_data_run w self c os :
  calendar_objs w !! self = Some c →
  Forall2 (λ r o, reminder_objs w !! r = Some o) (reminders c) os →
  Calendar.save_completion_data self w =
    (Return (),
     with_stdout (λ out, out ++ ["Completion data saved."])
       (with_files
          <["completion_data_" +:+ strftime_Ymd (dt_date (clock w (ticks w))) +:+ ".json" :=
              Document
                (JArray
                   (completion_record (strftime_Ymd (dt_date (clock w (ticks w)))) <$> os))]>
          (with_reminder_objs (reset_triggered (reminders c)) (with_ticks S w)))).
Proof.
  intros Hc Hos. unfold Calendar.save_completion_data.
  rewrite bind_run, fmap_run, date_today_run.
  rewrite bind_run, (get_calendar_run _ _ c) by done.
  rewrite bind_run.
  rewrite (save_loop_run _ _ os) by (apply recorded_as_self; exact Hos).
  rewrite bind_run. cbn [json_dump_file print].
  unfold with_stdout, with_files, with_reminder_objs, with_ticks. cbn.
  by rewrite reset_fold_closed.
Qed.

(** X9.  The daily snapshot re-arms the reminders of the calendar: after
    [save_completion_data], [check_notification] on a listed reminder whose
    window contains the time notifies it, whether it had been triggered
    before the snapshot or not. *)
Theorem daily_reset_rearms w self c os r o :
  calendar_objs w !! self = Some c →
  Forall2 (λ r o, reminder_objs w !! r = Some o) (reminders c) os →
  r ∈ reminders c →
  reminder_objs w !! r = Some o →
  in_window o (dt_time (clock w (S (ticks w)))) = true →
  ∃ w1 w2,
    Calendar.save_completion_data self w = (Return (), w1) ∧
    Reminder.check_notification r w1 = (Return (), w2) ∧
    reminder_objs w2 !! r =
      Some (MkReminder (title o) (start_time o) (end_time o) (done o) true
              (trigger_count o + 1)
              (if done o then done_count o + 1 else done_count o)
              (repetitions o) (bank_holiday_adjustment o) (permanent_offset o)).
Proof.
  intros Hc Hos Hin Ho Hwin. eexists _, _.
  split; [by apply (save_completion_data_run w self c os)|].
  erewrite (check_notification_run _ r (set_triggered false o)).
  2: { cbn. rewrite lookup_reset_triggered, Ho. by rewrite bool_decide_eq_true_2. }
  unfold in_window in *. cbn [triggered start_time end_time set_triggered negb andb] in *.
  cbn [clock ticks with_stdout with_files with_reminder_objs with_ticks].
  rewrite Hwin. split; [done|]. cbn. by rewrite lookup_insert_eq.
Qed.

Lemma daily_reset_rearms_witness :
  let w := sample_world {[ 2%positive := notified meeting ]} [2%positive] (at_ 2023 6 7 14 30) in
  calendar_objs w !! 1%positive = Some (MkCalendar [2%positive] []) ∧
  Forall2 (λ r o, reminder_objs w !! r = Some o) [2%positive] [notified meeting] ∧
  2%positive ∈ [2%positive] ∧
  reminder_objs w !! 2%positive = Some (notified meeting) ∧
  in_window (notified meeting) (dt_time (clock w (S (ticks w)))) = true ∧
  ∃ w1 w2,
    Calendar.save_completion_data 1%positive w = (Return (), w1) ∧
    Reminder.check_notification 2%positive w1 = (Return (), w2) ∧
    reminder_objs w2 !! 2%positive = Some (notified (notified meeting)).
Proof.
  intros w.
  assert (Forall2 (λ r o, reminder_objs w !! r = Some o) [2%positive] [notified meeting])
    as Hos by (repeat constructor).
  assert (2%positive ∈ [2%positive]) as Hin by apply list_elem_of_here.
  split; [reflexivity|]. split; [exact Hos|]. split; [exact Hin|].
  split; [reflexivity|]. split; [reflexivity|].
  exact (daily_reset_rearms w 1%positive _ _ 2%positive (notified meeting)
           eq_refl Hos Hin eq_refl eq_refl).
Defined.

(** X10.  Completion does not silence a reminder: after
    [mark_reminder_as_done], [check_notification] on an untriggered
    reminder whose window contains the time still prints the notification,
    and counts it in [done_count] as well as in [trigger_count]. *)
Theorem done_reminder_still_notifies w self c r o :
  calendar_objs w !! self = Some c →
  reminder_objs w !! r = Some o →
  triggered o = false →
  in_window o (dt_time (clock w (S (ticks w)))) = true →
  ∃ w1 w2,
    Calendar.mark_reminder_as_done self r w = (Return (), w1) ∧
    Reminder.check_notification r w1 = (Return (), w2) ∧
    stdout w2 =
      stdout w ++ ["Reminder marked as done.";
                   "Reminder: " +:+ title o +:+ " - It's time!"] ∧
    reminder_objs w2 !! r =
      Some (MkReminder (title o) (start_time o) (end_time o) true true
              (trigger_count o + 1) (done_count o + 1)
              (repetitions o) (bank_holiday_adjustment o) (permanent_offset o)).
Proof.
  intros Hc Ho Ht Hwin. eexists _, _.
  split; [by apply (mark_reminder_as_done_run w self c r o)|].
  erewrite check_notification_run by (cbn; apply lookup_insert_eq).
  unfold in_window in *. cbn [triggered start_time end_time set_done] in *.
  cbn [clock ticks with_stdout with_calendar_objs with_reminder_objs with_ticks].
  rewrite Ht, Hwin. cbn [negb andb]. split; [done|]. split.
  - cbn. by rewrite <- app_assoc.
  - cbn. by rewrite lookup_insert_eq.
Qed.

Lemma done_reminder_still_notifies_witness :
  let w := sample_world {[ 2%positive := meeting ]} [] (at_ 2023 6 7 14 30) in
  calendar_objs w !! 1%positive = Some (MkCalendar [] []) ∧
  reminder_objs w !! 2%positive = Some meeting ∧
  triggered meeting = false ∧
  in_window meeting (dt_time (clock w (S (ticks w)))) = true ∧
  ∃ w1 w2,
    Calendar.mark_reminder_as_done 1%positive 2%positive w = (Return (), w1) ∧
    Reminder.check_notification 2%positive w1 = (Return (), w2) ∧
    stdout w2 = [] ++ ["Reminder marked as done."; "Reminder: Meeting - It's time!"] ∧
    reminder_objs w2 !! 2%positive =
      Some (MkReminder "Meeting" (at_ 2023 6 7 14 0) (at_ 2023 6 7 15 0) true true
              (0 + 1) (0 + 1) [] false false).
Proof.
  intros w. repeat (split; [reflexivity|]).
  exact (done_reminder_still_notifies w 1%positive _ 2%positive meeting
           eq_refl eq_refl eq_refl eq_refl).
Defined.

Lemma reset_triggered_idemp ls (h : gmap loc reminder) :
  reset_triggered ls (reset_triggered ls h) = reset_triggered ls h.
Proof.
  apply map_eq. intros r. rewrite !lookup_reset_triggered.
  case_bool_decide; [|done]. by destruct (h !! r).
Qed.

(** X11.  Taking the snapshot a second time on the same day, with no
    notification in between, rewrites the same file with the same records
    and leaves every object as the first snapshot left it. *)
Theorem save_completion_data_again w self c os :
  calendar_objs w !! self = Some c →
  Forall2 (λ r o, reminder_objs w !! r = Some o) (reminders c) os →
  dt_date (clock w (S (ticks w))) = dt_date (clock w (ticks w)) →
  ∃ w1 w2,
    Calendar.save_completion_data self w = (Return (), w1) ∧
    Calendar.save_completion_data self w1 = (Return (), w2) ∧
    files w2 = files w1 ∧
    reminder_objs w2 = reminder_objs w1 ∧
    calendar_objs w2 = calendar_objs w1.
Proof.
  intros Hc Hos Hday. eexists _, _.
  split; [by apply (save_completion_data_run w self c os)|].
  split.
  - apply (save_completion_data_run _ self c (set_triggered false <$> os)); [done|].
    cbn. apply Forall2_fmap_r. eapply Forall2_impl_elem; [exact Hos|].
    cbn. intros r o Hin Ho. rewrite lookup_reset_triggered, Ho.
    by rewrite bool_decide_eq_true_2.
  - cbn. rewrite Hday. split; [|split; [apply reset_triggered_idemp|done]].
    rewrite <- list_fmap_compose.
    apply insert_insert_eq.
Qed.

Lemma save_completion_data_again_witness :
  let w := sample_world {[ 2%positive := notified meeting; 3%positive := exercise ]}
             [2%positive; 3%positive; 2%positive] (at_ 2023 6 9 0 0) in
  calendar_objs w !! 1%positive
    = Some (MkCalendar [2%positive; 3%positive; 2%positive] []) ∧
  Forall2 (λ r o, reminder_objs w !! r = Some o)
    [2%positive; 3%positive; 2%positive] [notified meeting; exercise; notified meeting] ∧
  dt_date (clock w (S (ticks w))) = dt_date (clock w (ticks w)) ∧
  ∃ w1 w2,
    Calendar.save_completion_data 1%positive w = (Return (), w1) ∧
    Calendar.save_completion_data 1%positive w1 = (Return (), w2) ∧
    files w2 = files w1 ∧
    reminder_objs w2 = reminder_objs w1 ∧
    calendar_objs w2 = calendar_objs w1.
Proof.
  intros w.
  assert (Forall2 (λ r o, reminder_objs w !! r = Some o)
            [2%positive; 3%positive; 2%positive]
            [notified meeting; exercise; notified meeting]) as Hos
    by (repeat constructor).
  split; [reflexivity|]. split; [exact Hos|]. split; [reflexivity|].
  exact (save_completion_data_again w 1%positive _ _ eq_refl Hos eq_refl).
Defined.

(** X12.  [mark_reminder_as_done] does not look at [done]: marking the
    same reminder twice appends two entries to [completed_tasks], each
    with the date of its own call, and [done] stays true. *)
Theorem mark_reminder_as_done_twice w self c r o :
  calendar_objs w !! self = Some c →
  reminder_objs w !! r = Some o →
  ∃ w2 c2,
    (Calendar.mark_reminder_as_done self r;; Calendar.mark_reminder_as_done self r) w
      = (Return (), w2) ∧
    calendar_objs w2 !! self = Some c2 ∧
    reminders c2 = reminders c ∧
    completed_tasks c2 =
      completed_tasks c ++
        [MkCompleted (title o) (strftime_Ymd (dt_date (clock w (ticks w))));
         MkCompleted (title o) (strftime_Ymd (dt_date (clock w (S (ticks w)))))] ∧
    reminder_objs w2 !! r =
      Some (MkReminder (title o) (start_time o) (end_time o) true (triggered o)
              (trigger_count o) (done_count o)
              (repetitions o) (bank_holiday_adjustment o) (permanent_offset o)).
Proof.
  intros Hc Ho. eexists _, _. rewrite bind_run.
  rewrite (mark_reminder_as_done_run w self c r o) by done.
  split; [eapply mark_reminder_as_done_run; cbn; apply lookup_insert_eq|].
  cbn. rewrite !lookup_insert_eq, <- app_assoc. done.
Qed.

Lemma mark_reminder_as_done_twice_witness :
  let w := sample_world {[ 2%positive := meeting ]} [2%positive] (at_ 2023 6 7 14 30) in
  calendar_objs w !! 1%positive = Some (MkCalendar [2%positive] []) ∧
  reminder_objs w !! 2%positive = Some meeting ∧
  ∃ w2 c2,
    (Calendar.mark_reminder_as_done 1%positive 2%positive;;
     Calendar.mark_reminder_as_done 1%positive 2%positive) w = (Return (), w2) ∧
    calendar_objs w2 !! 1%positive = Some c2 ∧
    reminders c2 = [2%positive] ∧
    completed_tasks c2 =
      [] ++ [MkCompleted "Meeting" "2023-06-07"; MkCompleted "Meeting" "2023-06-07"] ∧
    reminder_objs w2 !! 2%positive = Some (set_done true meeting).
Proof.
  intros w. repeat (split; [reflexivity|]).
  exact (mark_reminder_as_done_twice w 1%positive _ 2%positive meeting eq_refl eq_refl).
Defined.

(** ** The polling loop *)

Lemma clock_step_run t w r o :
  reminder_objs w !! r = Some o →
  (∀ k, dt_time (clock w k) = t) →
  Calendar.clock_step t r () w =
    (Return (),
     MkWorld (<[r := poll_one t o]> (reminder_objs w)) (calendar_objs w) (files w)
       (stdout w ++ (if due t o then [notification o] else []))
       (clock w)
       (ticks w + (if in_window o t then 1 else 0))%nat).
Proof.
  intros Ho Hclock. unfold Calendar.clock_step.
  rewrite bind_run, (get_reminder_run _ _ o) by done.
  fold (in_window o t). unfold poll_one, due.
  destruct (in_window o t) eqn:Hwin; cbn [andb].
  - rewrite (check_notification_run w r o Ho), Hclock, Hwin, andb_true_r.
    destruct (triggered o); cbn [negb].
    + unfold with_ticks. cbn. rewrite insert_id, app_nil_r by done.
      do 2 f_equal. lia.
    + unfold with_stdout, with_reminder_objs, with_ticks. cbn. do 2 f_equal. lia.
  - cbn. rewrite insert_id by done. rewrite app_nil_r, Nat.add_0_r. by destruct w.
Qed.

Lemma clock_loop_run t ls : ∀ os w,
  NoDup ls →
  Forall2 (λ l o, reminder_objs w !! l = Some o) ls os →
  (∀ k, dt_time (clock w k) = t) →
  for_each ls (Calendar.clock_step t) () w =
    (Return (),
     MkWorld (foldl (λ h l, alter (poll_one t) l h) (reminder_objs w) ls)
       (calendar_objs w) (files w)
       (stdout w ++ (notification <$> filter (λ o, due t o = true) os))
       (clock w)
       (ticks w + length (filter (λ o, in_window o t = true) os))%nat).
Proof.
  induction ls as [|l ls IH]; intros os w Hnd Hall Hclock.
  - apply Forall2_nil_inv_l in Hall as ->. cbn.
    rewrite app_nil_r, Nat.add_0_r. by destruct w.
  - apply Forall2_cons_inv_l in Hall as (o & os' & Ho & Hall & ->).
    apply NoDup_cons in Hnd as [Hl Hnd].
    cbn [for_each]. destruct (Calendar.clock_step t l () w) as [res w1] eqn:Hstep.
    rewrite bind_run, Hstep.
    rewrite (clock_step_run t w l o Ho Hclock) in Hstep. injection Hstep as <- <-.
    rewrite (IH os'); [|done| |done].
    + cbn [reminder_objs calendar_objs files stdout clock ticks foldl].
      rewrite !filter_cons. f_equal. f_equal.
      * f_equal. apply map_eq. intros i. rewrite lookup_alter, lookup_insert.
        repeat case_decide; simplify_eq; by rewrite ?Ho.
      * rewrite <- app_assoc. f_equal. by destruct (due t o).
      * destruct (in_window o t);
          [rewrite decide_True by done|rewrite decide_False by done];
          cbn [length]; lia.
    + cbn. eapply Forall2_impl_elem; [exact Hall|]. cbn. intros l' o' Hin Ho'.
      rewrite lookup_insert_ne; [done|]. by intros <-.
Qed.

Lemma lookup_poll_fold t ls : ∀ (h : gmap loc reminder) r,
  NoDup ls →
  foldl (λ h l, alter (poll_one t) l h) h ls !! r =
  (λ o, if bool_decide (r ∈ ls) then poll_one t o else o) <$> h !! r.
Proof.
  induction ls as [|l ls IH]; intros h r Hnd.
  - cbn. by destruct (h !! r).
  - apply NoDup_cons in Hnd as [Hl Hnd]. cbn [foldl]. rewrite IH, lookup_alter by done.
    destruct (decide (l = r)) as [->|Hne].
    + destruct (h !! r) as [o|]; cbn; [|done].
      rewrite (bool_decide_eq_true_2 (r ∈ r :: ls)) by apply list_elem_of_here.
      by rewrite bool_decide_eq_false_2.
    + destruct (h !! r) as [o|]; cbn; [|done]. f_equal.
      rewrite (bool_decide_ext (r ∈ l :: ls) (r ∈ ls)); [done|].
      rewrite elem_of_cons. split; [by intros [->|]|by right].
Qed.

Lemma poll_fold_closed t ls (h : gmap loc reminder) :
  NoDup ls → foldl (λ h l, alter (poll_one t) l h) h ls = poll_objs t ls h.
Proof.
  intros Hnd. apply map_eq. intros r. unfold poll_objs.
  rewrite lookup_poll_fold, map_lookup_imap by done. by destruct (h !! r).
Qed.

(** X13.  One round of [start_clock], while the clock shows the time of
    day [t], on a calendar that lists each reminder once: every listed
    reminder whose window contains [t] and that is not yet triggered is
    notified, once, in the order of the list; the reminders not listed, the
    calendar and the files are untouched; the clock is read once for the
    round and once more for each reminder in its window. *)
Theorem clock_round_steady w self c os t :
  calendar_objs w !! self = Some c →
  NoDup (reminders c) →
  Forall2 (λ r o, reminder_objs w !! r = Some o) (reminders c) os →
  (∀ k, dt_time (clock w k) = t) →
  Calendar.clock_round self w =
    (Return (),
     MkWorld
       (map_imap
          (λ r o, Some (if bool_decide (r ∈ reminders c)
                        then (if in_window o t && negb (triggered o)
                              then notified o else o)
                        else o))
          (reminder_objs w))
       (calendar_objs w) (files w)
       (stdout w ++
          ((λ o, "Reminder: " +:+ title o +:+ " - It's time!") <$>
             filter (λ o, in_window o t && negb (triggered o) = true) os))
       (clock w)
       (S (ticks w) + length (filter (λ o, in_window o t = true) os))%nat).
Proof.
  intros Hc Hnd Hos Hclock. unfold Calendar.clock_round.
  rewrite bind_run. cbn [datetime_now]. rewrite Hclock.
  rewrite bind_run. erewrite get_calendar_run by (cbn; done).
  rewrite bind_run, (clock_loop_run t _ os) by done.
  cbn. by rewrite poll_fold_closed.
Qed.

Lemma clock_round_steady_witness :
  let w := sample_world
             {[ 2%positive := meeting; 3%positive := exercise;
                4%positive := notified meeting; 5%positive := meeting ]}
             [4%positive; 3%positive; 2%positive] (at_ 2023 6 7 14 30) in
  calendar_objs w !! 1%positive = Some (MkCalendar [4%positive; 3%positive; 2%positive] []) ∧
  NoDup [4%positive; 3%positive; 2%positive] ∧
  Forall2 (λ r o, reminder_objs w !! r = Some o)
    [4%positive; 3%positive; 2%positive] [notified meeting; exercise; meeting] ∧
  (∀ k, dt_time (clock w k) = MkTime 14 30 0 0) ∧
  ∃ w',
    Calendar.clock_round 1%positive w = (Return (), w') ∧
    stdout w' = ["Reminder: Meeting - It's time!"] ∧
    ticks w' = 3%nat ∧
    reminder_objs w' !! 2%positive = Some (notified meeting) ∧
    reminder_objs w' !! 5%positive = Some meeting.
Proof.
  intros w.
  assert (NoDup [4%positive; 3%positive; 2%positive]) as Hnd
    by (apply (bool_decide_unpack (NoDup [4%positive; 3%positive; 2%positive]));
        reflexivity).
  assert (Forall2 (λ r o, reminder_objs w !! r = Some o)
            [4%positive; 3%positive; 2%positive] [notified meeting; exercise; meeting])
    as Hos by (repeat constructor).
  assert (∀ k, dt_time (clock w k) = MkTime 14 30 0 0) as Hclock by reflexivity.
  split; [reflexivity|]. split; [exact Hnd|]. split; [exact Hos|]. split; [exact Hclock|].
  eexists. split; [exact (clock_round_steady w 1%positive _ _ _ eq_refl Hnd Hos Hclock)|].
  repeat split.
Defined.

Lemma clock_round_idle w self c :
  calendar_objs w !! self = Some c → reminders c = [] →
  Calendar.clock_round self w = (Return (), with_ticks S w).
Proof.
  intros Hc Hl. unfold Calendar.clock_round. rewrite bind_run. cbn [datetime_now].
  rewrite bind_run. erewrite get_calendar_run by (cbn; done).
  by rewrite Hl.
Qed.

Lemma start_clock_idle rounds : ∀ w self c,
  calendar_objs w !! self = Some c → reminders c = [] →
  Calendar.start_clock rounds self w =
    (Return (),
     MkWorld (reminder_objs w) (calendar_objs w) (files w) (stdout w) (clock w)
       (rounds + ticks w)).
Proof.
  induction rounds as [|n IH]; intros w self c Hc Hl; cbn [Calendar.start_clock].
  - by destruct w.
  - rewrite bind_run, (clock_round_idle w self c) by done.
    rewrite (IH _ self c) by done. cbn. do 2 f_equal. lia.
Qed.

(** X14.  [main] does nothing but poll: it creates an empty calendar and
    enters [start_clock], and after any number of rounds nothing has been
    printed, no file has been written and no reminder exists that did not
    before; the clock has been read once per round. *)
Theorem main_only_polls rounds w :
  main rounds w =
    (Return (),
     MkWorld (reminder_objs w)
       (<[fresh (dom (calendar_objs w)) := MkCalendar [] []]> (calendar_objs w))
       (files w) (stdout w) (clock w) (rounds + ticks w)).
Proof.
  unfold main. rewrite bind_run. unfold Calendar.new, new_calendar.
  erewrite start_clock_idle; [reflexivity|cbn; apply lookup_insert_eq|reflexivity].
Qed.

(** ** [display_day_breakdown] *)

Lemma lex_opp c k : lex (CompOpp c) (CompOpp k) = CompOpp (lex c k).
Proof. by destruct c. Qed.

Lemma time_cmp_opp a b : time_cmp b a = CompOpp (time_cmp a b).
Proof. unfold time_cmp. by rewrite <- !lex_opp, <- !Z.compare_antisym. Qed.

Lemma date_cmp_opp a b : date_cmp b a = CompOpp (date_cmp a b).
Proof. unfold date_cmp. by rewrite <- !lex_opp, <- !Z.compare_antisym. Qed.

Lemma datetime_cmp_opp a b : datetime_cmp b a = CompOpp (datetime_cmp a b).
Proof.
  unfold datetime_cmp. by rewrite <- lex_opp, <- date_cmp_opp, <- time_cmp_opp.
Qed.

Lemma datetime_lt_le a b : datetime_lt a b = true → datetime_le a b = true.
Proof. unfold datetime_lt, datetime_le. by destruct (datetime_cmp a b). Qed.

Lemma datetime_not_lt_le a b : datetime_lt a b = false → datetime_le b a = true.
Proof.
  unfold datetime_lt, datetime_le. rewrite (datetime_cmp_opp a b).
  by destruct (datetime_cmp a b).
Qed.

Section Sort.
Context {A : Type}.
Implicit Types (x : datetime * A) (l : list (datetime * A)).

Lemma insert_by_key_perm x l : insert_by_key x l ≡ₚ x :: l.
Proof.
  induction l as [|y l IH]; [done|]. cbn [insert_by_key].
  destruct (datetime_lt y.1 x.1); [|done]. rewrite IH. apply Permutation_swap.
Qed.

Lemma sort_by_key_perm l : sort_by_key l ≡ₚ l.
Proof.
  induction l as [|x l IH]; [done|]. cbn [sort_by_key foldr].
  fold (sort_by_key l). by rewrite insert_by_key_perm, IH.
Qed.

Lemma insert_by_key_hd y x l :
  key_le y x → HdRel key_le y l → HdRel key_le y (insert_by_key x l).
Proof.
  intros Hyx Hl. destruct l as [|z l]; cbn [insert_by_key]; [by constructor|].
  apply HdRel_inv in Hl. destruct (datetime_lt z.1 x.1); by constructor.
Qed.

Lemma insert_by_key_sorted x l : Sorted key_le l → Sorted key_le (insert_by_key x l).
Proof.
  induction 1 as [|y l Hl IH Hhd]; cbn [insert_by_key]; [by repeat constructor|].
  destruct (datetime_lt y.1 x.1) eqn:Hlt.
  - constructor; [done|]. apply insert_by_key_hd; [|done]. by apply datetime_lt_le.
  - constructor; [by constructor|]. constructor. by apply datetime_not_lt_le.
Qed.

Lemma sort_by_key_sorted l : Sorted key_le (sort_by_key l).
Proof.
  induction l as [|x l IH]; [constructor|]. cbn [sort_by_key foldr].
  by apply insert_by_key_sorted.
Qed.
End Sort.

(** The sort looks at the keys alone: it commutes with any change of the
    items. *)
Lemma insert_by_key_map {A B} (f : A → B) x l :
  insert_by_key (prod_map id f x) (prod_map id f <$> l)
    = prod_map id f <$> insert_by_key x l.
Proof.
  induction l as [|y l IH]; [done|]. cbn [insert_by_key fmap list_fmap].
  destruct x, y. cbn. destruct (datetime_lt _ _); [|done]. cbn. f_equal. apply IH.
Qed.

Lemma sort_by_key_map {A B} (f : A → B) l :
  sort_by_key (prod_map id f <$> l) = prod_map id f <$> sort_by_key l.
Proof.
  induction l as [|x l IH]; [done|]. cbn [sort_by_key foldr fmap list_fmap].
  fold (sort_by_key l). fold (sort_by_key (prod_map id f <$> l)).
  by rewrite IH, insert_by_key_map.
Qed.

Lemma sorted_payload {A} (start : A → datetime) (l : list (datetime * A)) :
  Forall (λ x, x.1 = start x.2) l →
  Sorted key_le l →
  Sorted (λ a b, datetime_le (start a) (start b) = true) l.*2.
Proof.
  intros Hkeys Hsorted. induction Hsorted as [|x l Hl IH Hhd]; [constructor|].
  apply Forall_cons in Hkeys as [Hx Hkeys]. rewrite fmap_cons.
  constructor; [by apply IH|].
  destruct Hhd as [|y l Hxy]; [constructor|]. rewrite fmap_cons. constructor.
  apply Forall_cons in Hkeys as [Hy _]. unfold key_le in Hxy. by rewrite Hx, Hy in Hxy.
Qed.

Lemma filter_loop_run day ps : ∀ acc w,
  Forall (live w) ps →
  for_each ps.*1 (day_filter_step day) acc w =
    (Return (acc ++ (filter (λ p, dt_date (start_time p.2) = day) ps).*1), w).
Proof.
  induction ps as [|[l o] ps IH]; intros acc w Hall.
  - cbn. by rewrite app_nil_r.
  - apply Forall_cons in Hall as [Ho Hall]. cbn in Ho.
    cbn [fmap list_fmap fst for_each]. rewrite bind_run. unfold day_filter_step at 1.
    rewrite bind_run, (get_reminder_run _ _ o) by done. cbn [mret M_ret].
    rewrite IH by done. rewrite filter_cons. cbn [snd].
    destruct (decide (dt_date (start_time o) = day)); [|done].
    by rewrite <- app_assoc.
Qed.

Lemma key_loop_run ps : ∀ acc w,
  Forall (live w) ps →
  for_each ps.*1 sort_key_step acc w =
    (Return (acc ++ ((λ p, (start_time p.2, p.1)) <$> ps)), w).
Proof.
  induction ps as [|[l o] ps IH]; intros acc w Hall.
  - cbn. by rewrite app_nil_r.
  - apply Forall_cons in Hall as [Ho Hall]. cbn in Ho.
    cbn [fmap list_fmap fst for_each]. rewrite bind_run. unfold sort_key_step at 1.
    rewrite bind_run, (get_reminder_run _ _ o) by done. cbn [mret M_ret].
    rewrite IH by done. by rewrite <- app_assoc.
Qed.

Lemma breakdown_step_run w l o :
  reminder_objs w !! l = Some o →
  breakdown_step l () w = (Return (), with_stdout (λ out, out ++ breakdown_lines o) w).
Proof.
  intros Ho. unfold breakdown_step.
  do 6 (rewrite bind_run; erewrite (get_reminder_run _ l o) by exact Ho;
        rewrite bind_run; unfold print at 1; unfold with_stdout at 1;
        cbn [reminder_objs calendar_objs files stdout clock ticks]).
  unfold print, with_stdout. cbn. by rewrite <- !app_assoc.
Qed.

Lemma print_loop_run ps : ∀ w,
  Forall (live w) ps →
  for_each ps.*1 breakdown_step () w =
    (Return (), with_stdout (λ out, out ++ flat_map breakdown_lines ps.*2) w).
Proof.
  induction ps as [|[l o] ps IH]; intros w Hall.
  - cbn. unfold with_stdout. rewrite app_nil_r. by destruct w.
  - apply Forall_cons in Hall as [Ho Hall]. cbn in Ho.
    cbn [fmap list_fmap fst snd for_each flat_map]. rewrite bind_run.
    rewrite (breakdown_step_run w l o Ho). rewrite IH by done.
    unfold with_stdout. cbn. by rewrite <- app_assoc.
Qed.

Lemma Forall2_pairs {A B} (P : A → B → Prop) l k :
  Forall2 P l k → ∃ ps, ps.*1 = l ∧ ps.*2 = k ∧ Forall (λ p, P p.1 p.2) ps.
Proof.
  induction 1 as [|x y l k Hxy _ (ps & <- & <- & Hps)].
  - by exists [].
  - exists ((x, y) :: ps). by repeat split; [constructor].
Qed.

Lemma Forall_filter_live w (P : loc * reminder → Prop) `{∀ p, Decision (P p)} ps :
  Forall (live w) ps → Forall (live w) (filter P ps).
Proof.
  rewrite !Forall_forall. intros Hps p [_ Hin]%list_elem_of_filter. by apply Hps.
Qed.

Lemma filter_snd day (ps : list (loc * reminder)) :
  (filter (λ p, dt_date (start_time p.2) = day) ps).*2
    = filter (λ o, dt_date (start_time o) = day) ps.*2.
Proof.
  induction ps as [|[l o] ps IH]; [done|].
  rewrite fmap_cons, !filter_cons. cbn [snd].
  destruct (decide _); [|done]. rewrite fmap_cons. by f_equal.
Qed.

(** X15.  [display_day_breakdown] prints seven lines for each listed
    reminder that starts on the given day and for no other, the reminders
    in ascending order of [start_time]; it changes no object and no
    file. *)
Theorem display_day_breakdown_spec w calendar c os day :
  calendar_objs w !! calendar = Some c →
  Forall2 (λ r o, reminder_objs w !! r = Some o) (reminders c) os →
  ∃ events,
    events ≡ₚ filter (λ o, dt_date (start_time o) = day) os ∧
    Sorted (λ a b, datetime_le (start_time a) (start_time b) = true) events ∧
    display_day_breakdown calendar day w =
      (Return (),
       with_stdout
         (λ out, out ++
            flat_map (λ r, [
              "Title: " +:+ title r;
              "Start Time: " +:+ strftime_HM (start_time r);
              "End Time: " +:+ strftime_HM (end_time r);
              "Repetitions: " +:+ join ", " (repetitions r);
              "Bank Holiday Adjustment: " +:+ str_bool (bank_holiday_adjustment r);
              "Permanent Offset: " +:+ str_bool (permanent_offset r);
              ""]) events) w).
Proof.
  intros Hc (ps & Hps1 & Hps2 & Hlive)%Forall2_pairs.
  change (Forall (live w) ps) in Hlive.
  set (ps1 := filter (λ p : loc * reminder, dt_date (start_time p.2) = day) ps).
  set (keyed := (λ p : loc * reminder, (start_time p.2, p)) <$> ps1).
  set (ps2 := (sort_by_key keyed).*2).
  assert (ps2 ≡ₚ ps1) as Hperm.
  { unfold ps2. rewrite sort_by_key_perm. unfold keyed.
    rewrite <- list_fmap_compose. by rewrite list_fmap_id. }
  exists ps2.*2. split; [|split].
  - rewrite Hperm. unfold ps1. by rewrite filter_snd, Hps2.
  - apply (Sorted_fmap snd
             (λ a b : loc * reminder, datetime_le (start_time a.2) (start_time b.2) = true)
             (λ a b, datetime_le (start_time a) (start_time b) = true));
      [intros a b Hab; exact Hab|].
    unfold ps2. apply (sorted_payload (λ p : loc * reminder, start_time p.2)).
    + rewrite sort_by_key_perm. unfold keyed. apply Forall_fmap, Forall_forall.
      by intros p _.
    + apply sort_by_key_sorted.
  - unfold display_day_breakdown.
    rewrite bind_run, (get_calendar_run _ _ c) by done.
    rewrite bind_run, <- Hps1, filter_loop_run by done. cbn [app].
    fold ps1. rewrite bind_run, key_loop_run by (by apply Forall_filter_live).
    cbn [app].
    replace ((λ p : loc * reminder, (start_time p.2, p.1)) <$> ps1)
      with (prod_map id fst <$> keyed)
      by (unfold keyed; rewrite <- list_fmap_compose; done).
    rewrite sort_by_key_map.
    replace ((prod_map id fst <$> sort_by_key keyed).*2) with (ps2.*1)
      by (unfold ps2; rewrite <- !list_fmap_compose; done).
    apply print_loop_run. rewrite Hperm. by apply Forall_filter_live.
Qed.

Lemma display_day_breakdown_spec_witness :
  let w := sample_world
             {[ 2%positive := review; 3%positive := exercise; 4%positive := meeting ]}
             [2%positive; 3%positive; 4%positive] (at_ 2023 6 7 9 20) in
  calendar_objs w !! 1%positive = Some (MkCalendar [2%positive; 3%positive; 4%positive] []) ∧
  Forall2 (λ r o, reminder_objs w !! r = Some o)
    [2%positive; 3%positive; 4%positive] [review; exercise; meeting] ∧
  display_day_breakdown 1%positive (MkDate 2023 6 7) w =
    (Return (),
     with_stdout (λ out, out ++ breakdown_lines meeting ++ breakdown_lines review) w) ∧
  ∃ events,
    events ≡ₚ filter (λ o, dt_date (start_time o) = MkDate 2023 6 7) [review; exercise; meeting] ∧
    Sorted (λ a b, datetime_le (start_time a) (start_time b) = true) events ∧
    display_day_breakdown 1%positive (MkDate 2023 6 7) w =
      (Return (), with_stdout (λ out, out ++ flat_map breakdown_lines events) w).
Proof.
  intros w.
  assert (Forall2 (λ r o, reminder_objs w !! r = Some o)
            [2%positive; 3%positive; 4%positive] [review; exercise; meeting]) as Hos
    by (repeat constructor).
  split; [reflexivity|]. split; [exact Hos|]. split; [reflexivity|].
  exact (display_day_breakdown_spec w 1%positive _ _ (MkDate 2023 6 7) eq_refl Hos).
Defined.

(** ** What no sequence of calls does *)

Section Keeps.
Variable I : world → Prop.

Lemma keeps_ret {A} (a : A) : keeps I (mret a).
Proof. by intros w Hw. Qed.

Lemma keeps_raise {A} e : keeps I (raise e : M A).
Proof. by intros w Hw. Qed.

Lemma keeps_lift {A} (o : outcome A) : keeps I (lift o).
Proof. by intros w Hw. Qed.

Lemma keeps_bind {A B} (m : M A) (f : A → M B) :
  keeps I m → (∀ a, keeps I (f a)) → keeps I (m ≫= f).
Proof.
  intros Hm Hf w Hw. rewrite bind_run. specialize (Hm w Hw).
  destruct (m w) as [[a|e] w1]; [by apply Hf|done].
Qed.

Lemma keeps_fmap {A B} (g : A → B) (m : M A) : keeps I m → keeps I (g <$> m).
Proof. intros Hm. apply keeps_bind; [done|]. intros a. apply keeps_ret. Qed.

Lemma keeps_for_each {A B} (body : A → B → M B) xs :
  (∀ x acc, keeps I (body x acc)) → ∀ acc, keeps I (for_each xs body acc).
Proof.
  intros Hbody. induction xs as [|x xs IH]; intros acc; cbn [for_each].
  - apply keeps_ret.
  - apply keeps_bind; [apply Hbody|done].
Qed.

Lemma keeps_get_reminder r : keeps I (get_reminder r).
Proof. intros w Hw. unfold get_reminder. by destruct (_ !! _). Qed.

Lemma keeps_get_calendar c : keeps I (get_calendar c).
Proof. intros w Hw. unfold get_calendar. by destruct (_ !! _). Qed.

Lemma keeps_json_load_file f : keeps I (json_load_file f).
Proof. intros w Hw. unfold json_load_file. by destruct (_ !! _) as [[doc|]|]. Qed.

(** What the invariant must stand: the console, the files and the clock
    are free; an object is updated only in the ways [okR], [okC]. *)
Hypothesis I_stdout : ∀ f w, I w → I (with_stdout f w).
Hypothesis I_files : ∀ f w, I w → I (with_files f w).
Hypothesis I_ticks : ∀ f w, I w → I (with_ticks f w).

Lemma keeps_print s : keeps I (print s).
Proof. intros w Hw. by apply I_stdout. Qed.

Lemma keeps_datetime_now : keeps I datetime_now.
Proof. intros w Hw. by apply I_ticks. Qed.

Lemma keeps_date_today : keeps I date_today.
Proof. apply keeps_fmap, keeps_datetime_now. Qed.

Lemma keeps_json_dump_file f d : keeps I (json_dump_file f d).
Proof. intros w Hw. by apply I_files. Qed.

Lemma keeps_time_sleep n : keeps I (time_sleep n).
Proof. apply keeps_ret. Qed.

Variable okR : (reminder → reminder) → Prop.
Variable okC : (calendar → calendar) → Prop.

Hypothesis I_update_reminder : ∀ r f o w,
  okR f → I w → reminder_objs w !! r = Some o →
  I (with_reminder_objs <[r := f o]> w).
Hypothesis I_update_calendar : ∀ c f o w,
  okC f → I w → calendar_objs w !! c = Some o →
  I (with_calendar_objs <[c := f o]> w).
Hypothesis I_new_reminder : ∀ t s e reps b p w,
  I w →
  I (with_reminder_objs
       <[fresh (dom (reminder_objs w)) := Reminder.init t s e reps b p]> w).
Hypothesis I_new_calendar : ∀ w,
  I w → I (with_calendar_objs <[fresh (dom (calendar_objs w)) := Calendar.init]> w).
Hypothesis I_check_notification : ∀ r, keeps I (Reminder.check_notification r).

Hypothesis okR_done : okR (set_done true).
Hypothesis okR_reset : okR (set_triggered false).
Hypothesis okC_append : ∀ r, okC (λ c, set_reminders (reminders c ++ [r]) c).
Hypothesis okC_reminders : ∀ l, okC (set_reminders l).
Hypothesis okC_completed : ∀ t,
  okC (λ c, set_completed_tasks (completed_tasks c ++ [t]) c).

Lemma keeps_update_reminder r f : okR f → keeps I (update_reminder r f).
Proof.
  intros Hf w Hw. unfold update_reminder.
  destruct (_ !! _) eqn:Ho; [|done]. by eapply I_update_reminder.
Qed.

Lemma keeps_update_calendar c f : okC f → keeps I (update_calendar c f).
Proof.
  intros Hf w Hw. unfold update_calendar.
  destruct (_ !! _) eqn:Ho; [|done]. by eapply I_update_calendar.
Qed.

Ltac keeps_step :=
  match goal with
  | |- keeps _ (_ ≫= _) => apply keeps_bind; [|intros ?]
  | |- keeps _ (mret _) => apply keeps_ret
  | |- keeps _ (raise _) => apply keeps_raise
  | |- keeps _ (lift _) => apply keeps_lift
  | |- keeps _ (_ <$> _) => apply keeps_fmap
  | |- keeps _ (get_reminder _) => apply keeps_get_reminder
  | |- keeps _ (get_calendar _) => apply keeps_get_calendar
  | |- keeps _ (print _) => apply keeps_print
  | |- keeps _ datetime_now => apply keeps_datetime_now
  | |- keeps _ date_today => apply keeps_date_today
  | |- keeps _ (json_dump_file _ _) => apply keeps_json_dump_file
  | |- keeps _ (time_sleep _) => apply keeps_time_sleep
  | |- keeps _ (update_reminder _ _) => apply keeps_update_reminder
  | |- keeps _ (update_calendar _ _) => apply keeps_update_calendar
  | |- keeps _ (for_each _ _ _) => apply keeps_for_each; intros ? ?
  | |- keeps _ (Reminder.check_notification _) => apply I_check_notification
  | |- keeps _ (if ?b then _ else _) => destruct b
  | |- keeps _ (match ?x with _ => _ end) => destruct x
  end.

Lemma keeps_new_reminder t s e reps b p :
  keeps I (new_reminder (Reminder.init t s e reps b p)).
Proof. intros w Hw. by apply I_new_reminder. Qed.

Lemma keeps_new_calendar : keeps I (new_calendar Calendar.init).
Proof. intros w Hw. by apply I_new_calendar. Qed.

Ltac keeps_unfold :=
  progress unfold Reminder.mark_as_done, Reminder.serialize, Reminder.deserialize,
    Calendar.new, Calendar.add_reminder, Calendar.remove_reminder,
    Calendar.mark_reminder_as_done, Calendar.save_completion_data,
    Calendar.completion_step, Calendar.serialize,
    Calendar.save_reminders_to_file, Calendar.clock_round, Calendar.clock_step,
    display_day_breakdown, day_filter_step, sort_key_step, breakdown_step.

Lemma keeps_run_op o : keeps I (run_op o).
Proof.
  destruct o; cbn [run_op];
    repeat first
      [ keeps_step | keeps_unfold
      | apply keeps_new_reminder | apply keeps_new_calendar ];
    eauto.
Qed.

Lemma keeps_run_ops ops w : I w → I (run_ops ops w).
Proof.
  revert w. induction ops as [|o ops IH]; intros w Hw; [done|].
  cbn [run_ops]. apply IH. by apply keeps_run_op.
Qed.
End Keeps.


Lemma evolved_refl o : evolved o o.
Proof. unfold evolved. repeat split; (done || lia). Qed.

Lemma evolved_trans o1 o2 o3 : evolved o1 o2 → evolved o2 o3 → evolved o1 o3.
Proof. unfold evolved. intros H1 H2. destruct_and!. repeat split; (congruence || lia || eauto). Qed.

Lemma evolved_from_update h0 r f o w :
  evolving f → evolved_from h0 w → reminder_objs w !! r = Some o →
  evolved_from h0 (with_reminder_objs <[r := f o]> w).
Proof.
  intros Hf Hw Ho r0 o0 H0. destruct (Hw r0 o0 H0) as (o' & Ho' & Hev). cbn.
  destruct (decide (r = r0)) as [->|Hne].
  - rewrite lookup_insert_eq. eexists; split; [done|].
    rewrite Ho in Ho'. injection Ho' as ->. eapply evolved_trans; [done|apply Hf].
  - rewrite lookup_insert_ne by done. eauto.
Qed.

Lemma evolved_from_new h0 o w :
  evolved_from h0 w →
  evolved_from h0 (with_reminder_objs <[fresh (dom (reminder_objs w)) := o]> w).
Proof.
  intros Hw r0 o0 H0. destruct (Hw r0 o0 H0) as (o' & Ho' & Hev). cbn.
  rewrite lookup_insert_ne; [eauto|].
  intros <-. assert (fresh (dom (reminder_objs w)) ∈ dom (reminder_objs w)) as Hin
    by (apply elem_of_dom; eauto).
  by apply is_fresh in Hin.
Qed.

Lemma evolving_set_done : evolving (set_done true).
Proof. intros o. unfold evolved. cbn. repeat split; (done || lia). Qed.
Lemma evolving_set_triggered b : evolving (set_triggered b).
Proof. intros o. unfold evolved. cbn. repeat split; (done || lia). Qed.
Lemma evolving_trigger_count : evolving (λ o, set_trigger_count (trigger_count o + 1) o).
Proof. intros o. unfold evolved. cbn. repeat split; (done || lia). Qed.
Lemma evolving_done_count : evolving (λ o, set_done_count (done_count o + 1) o).
Proof. intros o. unfold evolved. cbn. repeat split; (done || lia). Qed.

Lemma evolved_from_check_notification h0 r :
  keeps (evolved_from h0) (Reminder.check_notification r).
Proof.
  pose proof (evolved_from_update h0) as Hupd.
  assert (∀ r f, evolving f → keeps (evolved_from h0) (update_reminder r f)) as Hu.
  { intros. eapply keeps_update_reminder; eauto. }
  assert (∀ s, keeps (evolved_from h0) (print s)) as Hp.
  { intros. by apply keeps_print. }
  unfold Reminder.check_notification.
  apply keeps_bind; [by apply keeps_datetime_now|intros now].
  apply keeps_bind; [apply keeps_get_reminder|intros me].
  destruct (_ && _); [|apply keeps_ret].
  apply keeps_bind; [apply Hp|intros _].
  apply keeps_bind; [apply Hu, evolving_set_triggered|intros _].
  apply keeps_bind; [apply Hu, evolving_trigger_count|intros _].
  apply keeps_bind; [apply keeps_get_reminder|intros me'].
  destruct (done me'); [apply Hu, evolving_done_count|apply keeps_ret].
Qed.

(** X16.  Whatever a client calls, and in whatever order, a reminder is
    never deleted, its title, times, repetitions and flags never change,
    its [done] is never cleared, and neither of its counters ever goes
    down. *)
Theorem reminders_only_evolve ops w r o :
  reminder_objs w !! r = Some o →
  ∃ o', reminder_objs (run_ops ops w) !! r = Some o' ∧ evolved o o'.
Proof.
  intros Ho.
  assert (evolved_from (reminder_objs w) (run_ops ops w)) as Hfinal; [|by apply Hfinal].
  apply (keeps_run_ops (evolved_from (reminder_objs w))) with
    (okR := evolving) (okC := λ _, True);
    [done|done|done
    |intros; by apply evolved_from_update
    |done
    |intros; by apply evolved_from_new
    |done
    |apply evolved_from_check_notification
    |apply evolving_set_done|apply evolving_set_triggered
    |done|done|done|].
  intros r0 o0 H0. eauto using evolved_refl.
Qed.

Lemma check_notification_dangling w r :
  reminder_objs w !! r = None →
  Reminder.check_notification r w = (Raise ReferenceError, with_ticks S w).
Proof.
  intros Hr. unfold Reminder.check_notification. rewrite bind_run. cbn [datetime_now].
  rewrite bind_run. unfold get_reminder. cbn. by rewrite Hr.
Qed.

Lemma counters_ok_notified o : counters_ok o → counters_ok (notified o).
Proof. unfold counters_ok. cbn. destruct (done o); lia. Qed.

Lemma all_counters_ok_check_notification r :
  keeps all_counters_ok (Reminder.check_notification r).
Proof.
  intros w Hw. destruct (reminder_objs w !! r) as [me|] eqn:Hme.
  - rewrite (check_notification_run w r me Hme).
    destruct (_ && _); [|done]. cbn.
    apply map_Forall_insert_2; [|done]. apply counters_ok_notified. by eapply Hw.
  - by rewrite check_notification_dangling.
Qed.

(** X17.  The counters stay consistent under every sequence of calls:
    [0 <= done_count <= trigger_count], and a triggered reminder has been
    notified at least once.  Reminders built by [deserialize] on the way
    start consistent. *)
Theorem counters_stay_consistent ops w :
  map_Forall (λ _, counters_ok) (reminder_objs w) →
  map_Forall (λ _, counters_ok) (reminder_objs (run_ops ops w)).
Proof.
  intros Hw.
  apply (keeps_run_ops all_counters_ok) with
    (okR := λ f, ∀ o, counters_ok o → counters_ok (f o)) (okC := λ _, True);
    [done|done|done
    |intros r f o w0 Hf Hw0 Ho; apply map_Forall_insert_2; [apply Hf; by eapply Hw0|done]
    |done
    |intros; apply map_Forall_insert_2; [unfold counters_ok; cbn; lia|done]
    |done
    |apply all_counters_ok_check_notification
    |by intros o|
    |done|done|done|done].
  intros o [? ?]. split; [done|]. cbn. done.
Qed.

Lemma log_grown_from_check_notification c0 r :
  keeps (log_grown_from c0) (Reminder.check_notification r).
Proof.
  assert (∀ r f, keeps (log_grown_from c0) (update_reminder r f)) as Hu.
  { intros r0 f. eapply keeps_update_reminder with (okR := λ _, True); done. }
  assert (∀ s, keeps (log_grown_from c0) (print s)) as Hp.
  { intros. by apply keeps_print. }
  unfold Reminder.check_notification.
  apply keeps_bind; [by apply keeps_datetime_now|intros now].
  apply keeps_bind; [apply keeps_get_reminder|intros me].
  destruct (_ && _); [|apply keeps_ret].
  repeat (apply keeps_bind; [first [apply Hp|apply Hu|apply keeps_get_reminder]|intros ?]).
  destruct (done _); [apply Hu|apply keeps_ret].
Qed.

(** X18.  [completed_tasks] is append-only under every sequence of
    calls: a calendar is never deleted and what its log held stays at the
    front of what it holds. *)
Theorem completed_tasks_append_only ops w c o :
  calendar_objs w !! c = Some o →
  ∃ o', calendar_objs (run_ops ops w) !! c = Some o' ∧
        completed_tasks o `prefix_of` completed_tasks o'.
Proof.
  intros Ho.
  assert (log_grown_from (calendar_objs w) (run_ops ops w)) as Hfinal; [|by apply Hfinal].
  apply (keeps_run_ops (log_grown_from (calendar_objs w))) with
    (okR := λ _, True) (okC := log_growing);
    [done|done|done|done| | |
    |apply log_grown_from_check_notification
    |done|done
    |by intros r0 o0|by intros l o0
    |intros t o0; by apply prefix_app_r|].
  - intros c1 f o1 w0 Hf Hw0 Ho1 c2 o2 H2.
    destruct (Hw0 c2 o2 H2) as (o' & Ho' & Hpre). cbn.
    destruct (decide (c1 = c2)) as [->|Hne].
    + rewrite lookup_insert_eq. eexists; split; [done|].
      rewrite Ho1 in Ho'. injection Ho' as ->. by etrans; [|apply Hf].
    + rewrite lookup_insert_ne by done. eauto.
  - done.
  - intros w0 Hw0 c2 o2 H2. destruct (Hw0 c2 o2 H2) as (o' & Ho' & Hpre). cbn.
    rewrite lookup_insert_ne; [eauto|].
    intros <-. assert (fresh (dom (calendar_objs w0)) ∈ dom (calendar_objs w0)) as Hin
      by (apply elem_of_dom; eauto).
    by apply is_fresh in Hin.
  - intros c2 o2 H2. eauto.
Qed.

Lemma reminders_only_evolve_witness :
  let w := sample_world {[ 2%positive := meeting ]} [2%positive] (at_ 2023 6 7 14 30) in
  reminder_objs w !! 2%positive = Some meeting ∧
  ∃ o', reminder_objs (run_ops sample_session w) !! 2%positive = Some o' ∧
        evolved meeting o'.
Proof.
  intros w. split; [reflexivity|].
  exact (reminders_only_evolve sample_session w 2%positive meeting eq_refl).
Defined.

Lemma counters_stay_consistent_witness :
  let w := sample_world {[ 2%positive := meeting ]} [2%positive] (at_ 2023 6 7 14 30) in
  map_Forall (λ _, counters_ok) (reminder_objs w) ∧
  map_Forall (λ _, counters_ok) (reminder_objs (run_ops sample_session w)).
Proof.
  intros w.
  assert (map_Forall (λ _, counters_ok) (reminder_objs w)) as Hw.
  { apply map_Forall_singleton. split; [cbn; lia|discriminate]. }
  split; [exact Hw|]. exact (counters_stay_consistent sample_session w Hw).
Defined.

Lemma completed_tasks_append_only_witness :
  let w := sample_world {[ 2%positive := meeting ]} [2%positive] (at_ 2023 6 7 14 30) in
  calendar_objs w !! 1%positive = Some (MkCalendar [2%positive] []) ∧
  ∃ o', calendar_objs (run_ops sample_session w) !! 1%positive = Some o' ∧
        completed_tasks (MkCalendar [2%positive] []) `prefix_of` completed_tasks o'.
Proof.
  intros w. split; [reflexivity|].
  exact (completed_tasks_append_only sample_session w 1%positive _ eq_refl).
Defined.

Example sample_session_outcome :
  let w := sample_world {[ 2%positive := meeting ]} [2%positive] (at_ 2023 6 7 14 30) in
  let w' := run_ops sample_session w in
  reminder_objs w' !! 2%positive
    = Some (MkReminder "Meeting" (at_ 2023 6 7 14 0) (at_ 2023 6 7 15 0)
              true true 2 2 [] false false) ∧
  calendar_objs w' !! 1%positive
    = Some (MkCalendar [] [MkCompleted "Meeting" "2023-06-07"]) ∧
  stdout w' =
    ["Reminder marked as done."; "Reminder: Meeting - It's time!";
     "Completion data saved."; "Reminder: Meeting - It's time!"].
Proof. intros w w'. by vm_compute. Qed.

(** ** More on the window and on removal *)

Lemma time_le_refl a : time_le a a = true.
Proof. apply time_le_spec. lia. Qed.

(** X19.  The window is closed at both ends: an untriggered reminder
    whose start is not after its end, by the time of day, is notified when
    the clock reads exactly its start time of day and when it reads exactly
    its end time of day. *)
Theorem window_ends_included w self me :
  reminder_objs w !! self = Some me →
  triggered me = false →
  time_le (dt_time (start_time me)) (dt_time (end_time me)) = true →
  dt_time (clock w (ticks w)) = dt_time (start_time me) ∨
  dt_time (clock w (ticks w)) = dt_time (end_time me) →
  Reminder.check_notification self w =
    (Return (),
     with_stdout (λ out, out ++ ["Reminder: " +:+ title me +:+ " - It's time!"])
       (with_reminder_objs
          <[self := MkReminder (title me) (start_time me) (end_time me)
                      (done me) true (trigger_count me + 1)
                      (if done me then done_count me + 1 else done_count me)
                      (repetitions me) (bank_holiday_adjustment me)
                      (permanent_offset me)]>
          (with_ticks S w))).
Proof.
  intros Hme Ht Hle Hnow. rewrite (check_notification_run w self me Hme), Ht.
  unfold in_window. by destruct Hnow as [-> | ->]; rewrite Hle, time_le_refl.
Qed.

Lemma window_ends_included_witness :
  let w := sample_world {[ 2%positive := meeting ]} [2%positive] (at_ 2023 6 9 15 0) in
  reminder_objs w !! 2%positive = Some meeting ∧
  triggered meeting = false ∧
  time_le (dt_time (start_time meeting)) (dt_time (end_time meeting)) = true ∧
  (dt_time (clock w (ticks w)) = dt_time (start_time meeting) ∨
   dt_time (clock w (ticks w)) = dt_time (end_time meeting)) ∧
  Reminder.check_notification 2%positive w =
    (Return (),
     with_stdout (λ out, out ++ ["Reminder: Meeting - It's time!"])
       (with_reminder_objs <[2%positive := notified meeting]> (with_ticks S w))).
Proof.
  intros w.
  assert (dt_time (clock w (ticks w)) = dt_time (start_time meeting) ∨
          dt_time (clock w (ticks w)) = dt_time (end_time meeting)) as Hnow
    by (right; reflexivity).
  split; [reflexivity|]. split; [reflexivity|]. split; [reflexivity|].
  split; [exact Hnow|].
  exact (window_ends_included w 2%positive meeting eq_refl eq_refl eq_refl Hnow).
Defined.

(** For any reading of the clock, a step of the loop on a live reminder
    returns and writes to the store at that reminder only. *)
Lemma clock_step_frame t w l o :
  reminder_objs w !! l = Some o →
  ∃ o' w1,
    Calendar.clock_step t l () w = (Return (), w1) ∧
    reminder_objs w1 = <[l := o']> (reminder_objs w) ∧
    calendar_objs w1 = calendar_objs w.
Proof.
  intros Ho. unfold Calendar.clock_step.
  rewrite bind_run, (get_reminder_run _ _ o) by done.
  destruct (_ && _).
  - rewrite (check_notification_run w l o Ho).
    destruct (negb (triggered o) && _).
    + eexists (notified o), _. split; [reflexivity|]. done.
    + eexists o, _. split; [reflexivity|]. cbn. by rewrite insert_id.
  - exists o, w. split; [done|]. by rewrite insert_id.
Qed.

Lemma clock_loop_frame t ls : ∀ w r,
  Forall (λ l, is_Some (reminder_objs w !! l)) ls → r ∉ ls →
  ∃ w1,
    for_each ls (Calendar.clock_step t) () w = (Return (), w1) ∧
    reminder_objs w1 !! r = reminder_objs w !! r ∧
    calendar_objs w1 = calendar_objs w.
Proof.
  induction ls as [|l ls IH]; intros w r Hlive Hr.
  - by exists w.
  - apply Forall_cons in Hlive as [[o Ho] Hlive].
    apply not_elem_of_cons in Hr as [Hne Hr].
    destruct (clock_step_frame t w l o Ho) as (o' & w1 & Hstep & Hobjs & Hcals).
    destruct (IH w1 r) as (w2 & Hrest & Hobjs2 & Hcals2); [|done|].
    { eapply Forall_impl; [exact Hlive|]. cbn. intros l' Hl'. rewrite Hobjs.
      destruct (decide (l = l')) as [->|];
        [by rewrite lookup_insert_eq|by rewrite lookup_insert_ne]. }
    exists w2. cbn [for_each]. rewrite bind_run, Hstep. split; [done|].
    split; [|congruence]. by rewrite Hobjs2, Hobjs, lookup_insert_ne.
Qed.

(** X20.  A removed reminder is no longer polled: after
    [remove_reminder(r)] on a calendar that listed each reminder once, a
    round of [start_clock] leaves [r] as it was, whatever the clock reads,
    also when [r] is due. *)
Theorem removed_reminder_not_polled w self c os r :
  calendar_objs w !! self = Some c →
  NoDup (reminders c) →
  Forall2 (λ r o, reminder_objs w !! r = Some o) (reminders c) os →
  r ∈ reminders c →
  ∃ w1 w2,
    Calendar.remove_reminder self r w = (Return (), w1) ∧
    Calendar.clock_round self w1 = (Return (), w2) ∧
    reminder_objs w2 !! r = reminder_objs w !! r.
Proof.
  intros Hc Hnd Hos (l1 & l2 & Hl & Hl1 & Hrm)%list_remove_first.
  rewrite Hl in Hnd.
  apply NoDup_app in Hnd as (Hnd1 & Hdisj & [Hl2 Hnd2]%NoDup_cons).
  assert (r ∉ l1 ++ l2) as Hr by (rewrite elem_of_app; by intros [?|?]).
  assert (Forall (λ l, is_Some (reminder_objs w !! l)) (l1 ++ l2)) as Hlive.
  { apply Forall_forall. intros l Hin.
    assert (l ∈ reminders c) as Hin'.
    { rewrite Hl, elem_of_app, elem_of_cons.
      apply elem_of_app in Hin as [?|?]; [by left|by right; right]. }
    apply list_elem_of_lookup in Hin' as [i Hi].
    destruct (Forall2_lookup_l _ _ _ _ _ Hos Hi) as (o & _ & Ho). by exists o. }
  set (w1 := with_calendar_objs
               <[self := MkCalendar (l1 ++ l2) (completed_tasks c)]> w).
  destruct (clock_loop_frame (dt_time (clock w1 (ticks w1))) (l1 ++ l2)
              (with_ticks S w1) r Hlive Hr) as (w2 & Hloop & Hobjs & _).
  exists w1, w2. split.
  { unfold Calendar.remove_reminder.
    rewrite bind_run, (get_calendar_run _ _ c), Hrm by done.
    by rewrite (update_calendar_run _ _ c). }
  split; [|done]. unfold Calendar.clock_round.
  rewrite bind_run. cbn [datetime_now].
  rewrite bind_run. erewrite get_calendar_run by (cbn; apply lookup_insert_eq).
  cbn [reminders]. by rewrite bind_run, Hloop.
Qed.

Lemma removed_reminder_not_polled_witness :
  let w := sample_world {[ 2%positive := meeting; 3%positive := review ]}
             [2%positive; 3%positive] (at_ 2023 6 7 14 30) in
  calendar_objs w !! 1%positive = Some (MkCalendar [2%positive; 3%positive] []) ∧
  NoDup [2%positive; 3%positive] ∧
  Forall2 (λ r o, reminder_objs w !! r = Some o) [2%positive; 3%positive] [meeting; review] ∧
  2%positive ∈ [2%positive; 3%positive] ∧
  in_window meeting (dt_time (clock w 0%nat)) = true ∧
  triggered meeting = false ∧
  ∃ w1 w2,
    Calendar.remove_reminder 1%positive 2%positive w = (Return (), w1) ∧
    Calendar.clock_round 1%positive w1 = (Return (), w2) ∧
    reminder_objs w2 !! 2%positive = Some meeting.
Proof.
  intros w.
  assert (NoDup [2%positive; 3%positive]) as Hnd
    by (apply (bool_decide_unpack (NoDup [2%positive; 3%positive])); reflexivity).
  assert (Forall2 (λ r o, reminder_objs w !! r = Some o)
            [2%positive; 3%positive] [meeting; review]) as Hos
    by (repeat constructor).
  assert (2%positive ∈ [2%positive; 3%positive]) as Hin by apply list_elem_of_here.
  split; [reflexivity|]. split; [exact Hnd|]. split; [exact Hos|]. split; [exact Hin|].
  split; [reflexivity|]. split; [reflexivity|].
  exact (removed_reminder_not_polled w 1%positive _ _ 2%positive eq_refl Hnd Hos Hin).
Defined.
